(** * linode_dyndns: identifier resolution and idempotent update

    A shallow embedding of [linode_dyndns.py].  The script is sequential
    Python that prints, talks to two web services, reads and writes one cache
    file and leaves through [sys.exit] or an exception.  It is modelled as a
    state-and-exit monad over the script's one global variable and an
    explicit event log.  Everything outside the script is an input of the
    model:
    - the command line, as [argparse] hands it over;
    - the answer of the IP finder and the answers of the provider, the latter
      already run through [json.loads];
    - the cache file, as [configparser] presents it after [read] (a file it
      cannot parse is outside the model), and whether it can be opened for
      writing;
    - [socket.inet_aton], as the set of strings it accepts, and [repr] on
      strings.
    Strings are Rocq strings, compared character by character. *)

From Stdlib Require Import ZArith Ascii.
From stdpp Require Import base strings list gmap pretty.

Set Warnings "-register-all".
Local Open Scope Z_scope.

(** ** Python values and the builtins the script applies to them *)

(** What [json.loads] can return.  A float is kept as the text [str] gives
    for it; a dict is the list of its items in insertion order. *)
Inductive Json : Type :=
  | JNull
  | JBool (b : bool)
  | JInt (n : Z)
  | JFloat (shown : string)
  | JStr (s : string)
  | JList (l : list Json)
  | JDict (items : list (string * Json)).

(** The exceptions the script can meet and does not catch. *)
Inductive Exn : Type :=
  | KeyError (key : string)
  | TypeError
  | AttributeError
  | OSError.

(** How a computation leaves: with a value, through [sys.exit], or with an
    exception that nothing catches. *)
Inductive Res (A : Type) : Type :=
  | Ret (a : A)
  | Exit (status : Z)
  | Raise (e : Exn).
Arguments Ret {A} a.
Arguments Exit {A} status.
Arguments Raise {A} e.

(** [d[k]] on a dict given by its items. *)
Fixpoint dict_get {V : Type} (k : string) (items : list (string * V)) : option V :=
  match items with
  | [] => None
  | (k', v) :: rest => if String.eqb k' k then Some v else dict_get k rest
  end.

(** [d[k] = v]: replaces the value in place, or appends a new item. *)
Fixpoint dict_set {V : Type} (k : string) (v : V) (items : list (string * V)) : list (string * V) :=
  match items with
  | [] => [(k, v)]
  | (k', v') :: rest =>
      if String.eqb k' k then (k', v) :: rest else (k', v') :: dict_set k v rest
  end.

(** What [obj[k]] raises when it has no value to give: [KeyError] on a dict,
    [TypeError] on anything else (a list or a string wants an integer; a
    number, a boolean and [None] take no subscript). *)
Definition lookup_error (obj : Json) (k : string) : Exn :=
  match obj with
  | JDict _ => KeyError k
  | _ => TypeError
  end.

(** [obj[k]] with a string subscript [k]. *)
Definition py_getitem (obj : Json) (k : string) : Res Json :=
  match obj with
  | JDict items =>
      match dict_get k items with
      | Some v => Ret v
      | None => Raise (lookup_error obj k)
      end
  | _ => Raise (lookup_error obj k)
  end.

(** The field [k] of a parsed object, when [obj] is an object that has it. *)
Definition json_field (k : string) (obj : Json) : option Json :=
  match obj with
  | JDict items => dict_get k items
  | _ => None
  end.

Fixpoint string_chars (s : string) : list string :=
  match s with
  | EmptyString => []
  | String c rest => String c EmptyString :: string_chars rest
  end.

(** [len(obj)]. *)
Definition py_len (obj : Json) : Res nat :=
  match obj with
  | JList l => Ret (length l)
  | JDict items => Ret (length items)
  | JStr s => Ret (String.length s)
  | _ => Raise TypeError
  end.

(** The elements [for x in obj] visits. *)
Definition py_iter (obj : Json) : Res (list Json) :=
  match obj with
  | JList l => Ret l
  | JDict items => Ret (map (λ kv, JStr kv.1) items)
  | JStr s => Ret (map JStr (string_chars s))
  | _ => Raise TypeError
  end.

(** [s + obj] for a string [s]. *)
Definition py_concat (s : string) (obj : Json) : Res string :=
  match obj with
  | JStr t => Ret (s +:+ t)
  | _ => Raise TypeError
  end.

(** [obj == s] for a string [s]. *)
Definition py_eq_str (obj : Json) (s : string) : bool :=
  match obj with
  | JStr t => String.eqb t s
  | _ => false
  end.

Definition lower_ascii (c : ascii) : ascii :=
  let n := Ascii.N_of_ascii c in
  if ((65 <=? n) && (n <=? 90))%N then Ascii.ascii_of_N (n + 32) else c.

Fixpoint lower (s : string) : string :=
  match s with
  | EmptyString => EmptyString
  | String c rest => String (lower_ascii c) (lower rest)
  end.

(** [obj.lower()]. *)
Definition py_lower (obj : Json) : Res string :=
  match obj with
  | JStr s => Ret (lower s)
  | _ => Raise AttributeError
  end.

Definition is_space (c : ascii) : bool :=
  let n := Ascii.N_of_ascii c in
  (((9 <=? n) && (n <=? 13)) || ((28 <=? n) && (n <=? 32)))%N.

Fixpoint lstrip (s : string) : string :=
  match s with
  | EmptyString => EmptyString
  | String c rest => if is_space c then lstrip rest else s
  end.

Fixpoint rstrip (s : string) : string :=
  match s with
  | EmptyString => EmptyString
  | String c rest =>
      match rstrip rest with
      | EmptyString => if is_space c then EmptyString else String c EmptyString
      | rest' => String c rest'
      end
  end.

(** [s.strip()]. *)
Definition strip (s : string) : string := rstrip (lstrip s).

Fixpoint join (sep : string) (l : list string) : string :=
  match l with
  | [] => EmptyString
  | [s] => s
  | s :: rest => s +:+ sep +:+ join sep rest
  end.

(** [needle in hay] on strings. *)
Fixpoint contains (needle hay : string) : bool :=
  String.prefix needle hay ||
  match hay with
  | EmptyString => false
  | String _ rest => contains needle rest
  end.

Section Repr.
(** [repr] of a string (the quoting and escaping), left to the platform. *)
Variable repr_str : string → string.

Fixpoint py_repr (v : Json) : string :=
  match v with
  | JNull => "None"
  | JBool true => "True"
  | JBool false => "False"
  | JInt n => pretty n
  | JFloat shown => shown
  | JStr s => repr_str s
  | JList l => "[" +:+ join ", " (map py_repr l) +:+ "]"
  | JDict items =>
      "{" +:+ join ", " (map (λ kv, match kv with
                                    | (k, x) => repr_str k +:+ ": " +:+ py_repr x
                                    end) items) +:+ "}"
  end.

(** [str(v)]. *)
Definition py_str (v : Json) : string :=
  match v with
  | JStr s => s
  | _ => py_repr v
  end.
End Repr.

(** ** The outside world *)

(** What fetching the IP-finder URL gives: a failure of [urlopen], [read] or
    [decode], or the decoded body. *)
Inductive Fetch : Type :=
  | FetchFailed (cause : string)
  | FetchBody (text : string).

(** What one HTTPS GET to the provider gives: a failure to connect or read,
    a body that [json.loads] rejects, or a body that it parses to [obj]. *)
Inductive Reply : Type :=
  | ReplyFailed (cause : string)
  | ReplyNotJSON (cause : string)
  | ReplyJSON (obj : Json).

(** The cache as [configparser] presents it: sections by name, options by
    name inside a section. *)
Abbreviation Cache := (gmap string (gmap string string)).

(** Query parameters, in the order the script adds them. *)
Abbreviation Params := (list (string * string)).

(** The command line after [argparse]. *)
Record Args : Type := {
  apiKey : string;
  domainID : string;
  resourceID : string;
  ip : option string
}.

(** The provider answers a request by what the request says; the requests of
    one run all differ in their [api_action]. *)
Record World : Type := {
  ip_finder : Fetch;
  linode_api : Params → Reply;
  (** the content [cache.read] loads; empty when there is no file *)
  cache_file : Cache;
  (** whether [open(cache_filename, 'w')] succeeds *)
  cache_writable : bool
}.

Inductive Event : Type :=
  | EvPrint (line : string)
  | EvFetch (url : string)
  | EvRequest (params : Params)
  | EvCacheWrite (filename : string) (content : Cache).

(** The module-level variable of the script and the log of what it did. *)
Record State : Type := {
  _LINODE_API_KEY : string;
  events : list Event
}.

(** ** Computations: state passing with early exit *)

Definition M (A : Type) : Type := State → Res A * State.

Definition M_ret {A} (a : A) : M A := λ st, (Ret a, st).

Definition M_bind {A B} (f : A → M B) (m : M A) : M B :=
  λ st, match m st with
        | (Ret a, st') => f a st'
        | (Exit status, st') => (Exit status, st')
        | (Raise e, st') => (Raise e, st')
        end.

Global Instance Res_mret : MRet Res := @Ret.
Global Instance Res_mbind : MBind Res := λ A B f r,
  match r with
  | Ret a => f a
  | Exit status => Exit status
  | Raise e => Raise e
  end.

Global Instance M_mret : MRet M := @M_ret.
Global Instance M_mbind : MBind M := @M_bind.

(** A builtin that returns or raises, run inside the script. *)
Definition lift {A} (r : Res A) : M A := λ st, (r, st).

Definition emit (e : Event) : M unit :=
  λ st, (Ret (), {| _LINODE_API_KEY := _LINODE_API_KEY st; events := events st ++ [e] |}).

Definition print (line : string) : M unit := emit (EvPrint line).

Definition sys_exit {A} (status : Z) : M A := λ st, (Exit status, st).

Definition get_api_key : M string := λ st, (Ret (_LINODE_API_KEY st), st).

Definition set_api_key (key : string) : M unit :=
  λ st, (Ret (), {| _LINODE_API_KEY := key; events := events st |}).

(** [st] with [log] added to what it has logged. *)
Definition log_to (st : State) (log : list Event) : State :=
  {| _LINODE_API_KEY := _LINODE_API_KEY st; events := events st ++ log |}.

(** ** Reading an event log *)

(** The [api_action] of every provider request, in order. *)
Fixpoint api_actions (log : list Event) : list string :=
  match log with
  | [] => []
  | EvRequest params :: rest =>
      match dict_get "api_action" params with
      | Some a => a :: api_actions rest
      | None => EmptyString :: api_actions rest
      end
  | _ :: rest => api_actions rest
  end.

(** The contents written to the cache file, in order. *)
Fixpoint cache_writes (log : list Event) : list Cache :=
  match log with
  | [] => []
  | EvCacheWrite _ content :: rest => content :: cache_writes rest
  | _ :: rest => cache_writes rest
  end.

(** What a run does to the provider and to the cache file: a request,
    shown by its [api_action], or a write of the cache file. *)
Inductive Effect : Type :=
  | Calls (action : option string)
  | WritesCache.

Fixpoint effects (log : list Event) : list Effect :=
  match log with
  | [] => []
  | EvRequest params :: rest => Calls (dict_get "api_action" params) :: effects rest
  | EvCacheWrite _ _ :: rest => WritesCache :: effects rest
  | _ :: rest => effects rest
  end.

(** ** Sample platform and worlds for the worked examples *)

Definition is_digit (c : ascii) : bool :=
  let n := Ascii.N_of_ascii c in ((48 <=? n) && (n <=? 57))%N.

Fixpoint parse_octets (s : string) (cur : option N) : option (list N) :=
  match s with
  | EmptyString =>
      match cur with
      | Some n => Some [n]
      | None => None
      end
  | String c rest =>
      if Ascii.eqb c "." then
        match cur with
        | Some n => (n ::.) <$> parse_octets rest None
        | None => None
        end
      else if is_digit c then
        parse_octets rest (Some (10 * default 0 cur + (Ascii.N_of_ascii c - 48))%N)
      else None
  end.

(** A sample address parser: four decimal octets.  The real [inet_aton]
    accepts more; the theorems hold for any parser. *)
Definition dotted_quad (s : string) : bool :=
  match parse_octets s None with
  | Some [a; b; c; d] => ((a <=? 255) && (b <=? 255) && (c <=? 255) && (d <=? 255))%N
  | _ => false
  end.

(** A sample [repr] for strings: single quotes, no escaping. *)
Definition sample_repr (s : string) : string := "'" +:+ s +:+ "'".

Definition list_response (data : list Json) : Json :=
  JDict [("ERRORARRAY", JList []); ("DATA", JList data)].

Definition error_response (errors : list Json) : Json :=
  JDict [("ERRORARRAY", JList errors); ("DATA", JList [])].

Definition sample_domains : list Json :=
  [JDict [("DOMAINID", JInt 100); ("DOMAIN", JStr "example.com")]].

Definition sample_resources : list Json :=
  [JDict [("RESOURCEID", JInt 199); ("TYPE", JStr "CNAME"); ("NAME", JStr "home")];
   JDict [("RESOURCEID", JInt 200); ("TYPE", JStr "A"); ("NAME", JStr "home")]].

(** A provider that answers each action with a fixed reply. *)
Definition provider_of (domains resources update : Reply) (params : Params) : Reply :=
  match dict_get "api_action" params with
  | Some action =>
      if String.eqb action "domain.list" then domains
      else if String.eqb action "domain.resource.list" then resources
      else update
  | None => update
  end.

Definition sample_provider : Params → Reply :=
  provider_of (ReplyJSON (list_response sample_domains))
              (ReplyJSON (list_response sample_resources))
              (ReplyJSON (list_response [])).

(** Fresh cache, valid inputs. *)
Definition fresh_world : World :=
  {| ip_finder := FetchBody "203.0.113.5";
     linode_api := sample_provider;
     cache_file := ∅;
     cache_writable := true |}.

(** The cache already holds the desired address. *)
Definition cached_world : World :=
  {| ip_finder := FetchBody "203.0.113.5";
     linode_api := sample_provider;
     cache_file := {["home.example.com" := {["ip" := "203.0.113.5"]}]};
     cache_writable := true |}.

(** The cache holds a string that is no address. *)
Definition stale_world : World :=
  {| ip_finder := FetchBody "203.0.113.5";
     linode_api := sample_provider;
     cache_file := {["home.example.com" := {["ip" := "not-an-address"]}]};
     cache_writable := true |}.

(** A list in which the name of the second entry is the ID of the first. *)
Definition precedence_domains : list Json :=
  [JDict [("DOMAINID", JInt 100); ("DOMAIN", JStr "example.com")];
   JDict [("DOMAINID", JInt 101); ("DOMAIN", JStr "100")]].

Definition precedence_world : World :=
  {| ip_finder := FetchBody "203.0.113.5";
     linode_api := provider_of (ReplyJSON (list_response precedence_domains))
                               (ReplyJSON (list_response sample_resources))
                               (ReplyJSON (list_response []));
     cache_file := ∅;
     cache_writable := true |}.

Definition two_errors : list Json :=
  [JDict [("ERRORCODE", JInt 4); ("ERRORMESSAGE", JStr "Authentication failed")];
   JDict [("ERRORCODE", JInt 5); ("ERRORMESSAGE", JStr "Object not found")]].

(** Every request is answered with two errors. *)
Definition failing_world : World :=
  {| ip_finder := FetchBody "203.0.113.5";
     linode_api := λ _, ReplyJSON (error_response two_errors);
     cache_file := ∅;
     cache_writable := true |}.

(** Every request is answered with an object that has no [ERRORARRAY]. *)
Definition keyless_world : World :=
  {| ip_finder := FetchBody "203.0.113.5";
     linode_api := λ _, ReplyJSON (JDict [("DATA", JList sample_domains)]);
     cache_file := ∅;
     cache_writable := true |}.

(** Every request is answered with an object that has no [DATA]. *)
Definition dataless_world : World :=
  {| ip_finder := FetchBody "203.0.113.5";
     linode_api := λ _, ReplyJSON (JDict [("ERRORARRAY", JList [])]);
     cache_file := ∅;
     cache_writable := true |}.

(** The provider cannot be reached; the provider answers with a page that
    is no JSON. *)
Definition unreachable_world : World :=
  {| ip_finder := FetchBody "203.0.113.5";
     linode_api := λ _, ReplyFailed "timed out";
     cache_file := ∅;
     cache_writable := true |}.

Definition garbled_world : World :=
  {| ip_finder := FetchBody "203.0.113.5";
     linode_api := λ _, ReplyNotJSON "Expecting value: line 1 column 1 (char 0)";
     cache_file := ∅;
     cache_writable := true |}.



(** Lists whose first entry lacks an ID, before an entry that matches. *)
Definition ragged_domains : list Json :=
  [JDict [("DOMAIN", JStr "other.com")];
   JDict [("DOMAINID", JInt 100); ("DOMAIN", JStr "example.com")]].

Definition ragged_resources : list Json :=
  [JDict [("TYPE", JStr "CNAME"); ("NAME", JStr "www")];
   JDict [("RESOURCEID", JInt 200); ("TYPE", JStr "A"); ("NAME", JStr "home")]].

Definition ragged_world : World :=
  {| ip_finder := FetchBody "203.0.113.5";
     linode_api := provider_of (ReplyJSON (list_response ragged_domains))
                               (ReplyJSON (list_response ragged_resources))
                               (ReplyJSON (list_response []));
     cache_file := ∅;
     cache_writable := true |}.


(** No [-ip] flag. *)
Definition lookup_args : Args :=
  {| apiKey := "KEY123"; domainID := "example.com"; resourceID := "home"; ip := None |}.

Definition sample_args : Args :=
  {| apiKey := "KEY123"; domainID := "example.com"; resourceID := "home";
     ip := Some "203.0.113.5" |}.

(** The same record, named by its canonical IDs. *)
Definition numeric_args : Args :=
  {| apiKey := "KEY123"; domainID := "100"; resourceID := "200";
     ip := Some "203.0.113.5" |}.

Definition unknown_domain_args : Args :=
  {| apiKey := "KEY123"; domainID := "nope.com"; resourceID := "home";
     ip := Some "203.0.113.5" |}.

Definition malformed_ip_args : Args :=
  {| apiKey := "KEY123"; domainID := "example.com"; resourceID := "home";
     ip := Some "not-an-address" |}.

Definition sample_state : State :=
  {| _LINODE_API_KEY := "KEY123"; events := [] |}.

(** ** The script *)

Definition _IP_FINDER_URL : string := "http://www.whatismyip.com/automation/n09230945.asp".

(** The text of the [socket.error] that [socket.inet_aton] raises. *)
Definition inet_aton_error : string := "illegal IP address string passed to inet_aton".

(** The double quote, and the newline and tab that start a line of an
    error report. *)
Definition dq : string := String "034" EmptyString.
Definition nl_tab : string := String "010" (String "009" EmptyString).

Definition cache_filename : string := "linode_dyndns_cache.ini".

(** The test of [_main] on the loaded cache:
    [key in cache and 'ip' in cache[key] and cache[key]['ip'] == ip]. *)
Definition cache_is_current (cache : Cache) (key ip : string) : bool :=
  match cache !! key with
  | Some section =>
      match section !! "ip" with
      | Some stored => String.eqb stored ip
      | None => false
      end
  | None => false
  end.

Section Script.
(** [socket.inet_aton]: [true] when it accepts the string, [false] when it
    raises [socket.error]. *)
Variable inet_aton : string → bool.
Variable repr_str : string → string.
Variable w : World.

Definition _handleError {A} (message : string) (ex : option string) : M A :=
  print ("Error: " +:+ message);;
  match ex with
  | Some cause => print "Root cause:";; print (String "009" cause)
  | None => mret ()
  end;;
  print "Terminating.";;
  sys_exit (-1).

Definition _validateIP (ip : string) : M unit :=
  if inet_aton ip then mret ()
  else _handleError ("The supplied IP address " +:+ dq +:+ ip +:+ dq +:+ " is invalid.")
                    (Some inet_aton_error).

Definition _getExternalIP : M string :=
  emit (EvFetch _IP_FINDER_URL);;
  ip ← match ip_finder w with
       | FetchBody text => mret (strip text)
       | FetchFailed cause =>
           _handleError "Could not determine your external IP address." (Some cause)
       end;
  _validateIP ip;;
  mret ip.

(** The loop of [_linodeAPICall] that adds one line per error. *)
Fixpoint error_lines (api_errors : list Json) (errorMessage : string) : Res string :=
  match api_errors with
  | [] => Ret errorMessage
  | error :: rest =>
      message ← py_getitem error "ERRORMESSAGE";
      line ← py_concat nl_tab message;
      code ← py_getitem error "ERRORCODE";
      error_lines rest
        (errorMessage +:+ line +:+ " (Error Code: " +:+ py_str repr_str code +:+ ")")
  end.

(** The event is logged when the request is attempted, before its fate is
    known. *)
Definition _linodeAPICall (apiParams : Params) : M Json :=
  key ← get_api_key;
  let apiParams := dict_set "api_key" key apiParams in
  emit (EvRequest apiParams);;
  response_obj ← match linode_api w apiParams with
                 | ReplyFailed cause =>
                     _handleError "An error occurred while connecting to the Linode API."
                                  (Some cause)
                 | ReplyNotJSON cause =>
                     _handleError "Couldn't parse JSON response from Linode API."
                                  (Some cause)
                 | ReplyJSON obj => mret obj
                 end;
  api_errors ← lift (py_getitem response_obj "ERRORARRAY");
  n ← lift (py_len api_errors);
  (if (0 <? n)%nat then
     errors ← lift (py_iter api_errors);
     errorMessage ← lift (error_lines errors
                            "The Linode API call failed with the following error(s).");
     _handleError errorMessage None
   else mret ());;
  mret response_obj.

(** The loop of [_normalizeDomainID]; [None] when it runs to the end. *)
Fixpoint find_domain (candidate : string) (domains : list Json) : Res (option string) :=
  match domains with
  | [] => Ret None
  | domain :: rest =>
      id ← py_getitem domain "DOMAINID";
      let domainID := py_str repr_str id in
      if String.eqb domainID candidate then Ret (Some domainID)
      else
        name ← py_getitem domain "DOMAIN";
        if py_eq_str name candidate then Ret (Some domainID)
        else find_domain candidate rest
  end.

Definition _normalizeDomainID (candidate : string) : M string :=
  apiResult ← _linodeAPICall [("api_action", "domain.list")];
  data ← lift (py_getitem apiResult "DATA");
  domains ← lift (py_iter data);
  found ← lift (find_domain candidate domains);
  match found with
  | Some domainID => mret domainID
  | None =>
      _handleError ("The supplied Domain ID/domain name " +:+ dq +:+ candidate +:+ dq +:+
                    " is invalid or is not associated with the supplied Linode API key.")
                   None
  end.

(** The loop of [_normalizeResourceID]; [None] when it runs to the end. *)
Fixpoint find_resource (candidate : string) (resources : list Json) : Res (option string) :=
  match resources with
  | [] => Ret None
  | resource :: rest =>
      type ← py_getitem resource "TYPE";
      resourceType ← py_lower type;
      id ← py_getitem resource "RESOURCEID";
      let resourceID := py_str repr_str id in
      if String.eqb resourceType "a" then
        if String.eqb resourceID candidate then Ret (Some resourceID)
        else
          name ← py_getitem resource "NAME";
          if py_eq_str name candidate then Ret (Some resourceID)
          else find_resource candidate rest
      else find_resource candidate rest
  end.

Definition _normalizeResourceID (domainID candidate : string) : M string :=
  apiResult ← _linodeAPICall [("api_action", "domain.resource.list"); ("DomainID", domainID)];
  data ← lift (py_getitem apiResult "DATA");
  resources ← lift (py_iter data);
  found ← lift (find_resource candidate resources);
  match found with
  | Some resourceID => mret resourceID
  | None =>
      _handleError ("The supplied Resource ID/name " +:+ dq +:+ candidate +:+ dq +:+
                    " is invalid or is not associated with Domain ID " +:+
                    dq +:+ domainID +:+ dq +:+ ".")
                   None
  end.

Definition _updateDynDNS (domainID resourceID target : string) : M unit :=
  let apiParams := [("api_action", "domain.resource.update"); ("DomainID", domainID);
                    ("ResourceID", resourceID); ("target", target)] in
  _validateIP target;;
  _linodeAPICall apiParams;;
  mret ().

(** [with open(cache_filename, 'w') as output_file: cache.write(output_file)]. *)
Definition write_cache (cache : Cache) : M unit :=
  if cache_writable w then emit (EvCacheWrite cache_filename cache)
  else lift (Raise OSError).

Definition _main (args : Args) : M unit :=
  let userDomainId := domainID args in
  let userResourceId := resourceID args in
  set_api_key (apiKey args);;
  ip ← match ip args with
       | Some ip => mret ip
       | None => _getExternalIP
       end;
  let cache := cache_file w in
  let cacheKeyName := userResourceId +:+ "." +:+ userDomainId in
  if cache_is_current cache cacheKeyName ip then
    print ("The target IP address " +:+ dq +:+ ip +:+ dq +:+
           " is already current for Resource ID " +:+ dq +:+ userResourceId +:+ dq +:+
           " with Domain ID " +:+ dq +:+ userDomainId +:+ dq +:+ ".");;
    print "No update is needed.";;
    print "Terminating.";;
    sys_exit 0
  else
    domainId ← _normalizeDomainID userDomainId;
    resourceId ← _normalizeResourceID domainId userResourceId;
    _updateDynDNS domainId resourceId ip;;
    let cache := <[cacheKeyName := ∅]> cache in
    let cache := <[cacheKeyName := <["ip" := ip]> (default ∅ (cache !! cacheKeyName))]> cache in
    write_cache cache;;
    print ("The target IP address for Resource ID " +:+ dq +:+ userResourceId +:+ dq +:+
           " with Domain ID " +:+ dq +:+ userDomainId +:+ dq +:+
           " was successfully updated to " +:+ dq +:+ ip +:+ dq +:+ ".");;
    print "Terminating.";;
    sys_exit 0.

(** A run of the script: [_main] from the state of a fresh interpreter. *)
Definition run (args : Args) : Res unit * State :=
  _main args {| _LINODE_API_KEY := EmptyString; events := [] |}.

(** ** Vocabulary of the properties *)

(** What [_handleError] prints. *)
Definition error_prints (message : string) (ex : option string) : list Event :=
  EvPrint ("Error: " +:+ message) ::
  match ex with
  | Some cause => [EvPrint "Root cause:"; EvPrint (String "009" cause)]
  | None => []
  end ++ [EvPrint "Terminating."].

(** A computation that did not return: it left through [_handleError] or
    with an uncaught exception. *)
Definition failed {A} (r : Res A) : Prop :=
  match r with
  | Ret _ => False
  | Exit status => status = -1
  | Raise _ => True
  end.

(** A parsed reply that [_linodeAPICall] hands back: its error list is
    there and has length zero. *)
Definition no_errors (obj : Json) : bool :=
  match json_field "ERRORARRAY" obj with
  | Some api_errors =>
      match py_len api_errors with
      | Ret 0%nat => true
      | _ => false
      end
  | None => false
  end.

(** The address the cache holds for a key, if any. *)
Definition stored_ip (cache : Cache) (key : string) : option string :=
  section ← cache !! key; section !! "ip".

(** The address the run wants the record to have, once it has one: the
    [-ip] flag as given, else the stripped answer of the IP finder when the
    parser accepts it. *)
Definition desired_ip (args : Args) : option string :=
  match ip args with
  | Some flag => Some flag
  | None =>
      match ip_finder w with
      | FetchBody text => if inet_aton (strip text) then Some (strip text) else None
      | FetchFailed _ => None
      end
  end.

(** The cache key of a run. *)
Definition cache_key (args : Args) : string :=
  resourceID args +:+ "." +:+ domainID args.

(** A run that skipped: it left with status 0 and neither called the
    provider nor wrote the cache. *)
Definition skipped (outcome : Res unit * State) : Prop :=
  outcome.1 = Exit 0 ∧ effects (events outcome.2) = [].

(** A well-formed domain entry that does not match the candidate. *)
Definition domain_passed_over (candidate : string) (domain : Json) : Prop :=
  ∃ id name, json_field "DOMAINID" domain = Some id ∧
             json_field "DOMAIN" domain = Some name ∧
             py_str repr_str id ≠ candidate ∧ name ≠ JStr candidate.

(** A domain entry that the scan selects, with the ID it returns. *)
Definition domain_selected (candidate : string) (domain : Json) (domainID : string) : Prop :=
  ∃ id, json_field "DOMAINID" domain = Some id ∧ domainID = py_str repr_str id ∧
        (domainID = candidate ∨ json_field "DOMAIN" domain = Some (JStr candidate)).

(** A well-formed resource entry that the scan passes over: it is not an
    A record, or neither its ID nor its name is the candidate. *)
Definition resource_passed_over (candidate : string) (resource : Json) : Prop :=
  ∃ type id, json_field "TYPE" resource = Some (JStr type) ∧
             json_field "RESOURCEID" resource = Some id ∧
             (lower type ≠ "a" ∨
              (py_str repr_str id ≠ candidate ∧
               ∃ name, json_field "NAME" resource = Some name ∧ name ≠ JStr candidate)).

(** A resource entry that the scan selects, with the ID it returns. *)
Definition resource_selected (candidate : string) (resource : Json) (resourceID : string) : Prop :=
  ∃ type id, json_field "TYPE" resource = Some (JStr type) ∧ lower type = "a" ∧
             json_field "RESOURCEID" resource = Some id ∧
             resourceID = py_str repr_str id ∧
             (resourceID = candidate ∨ json_field "NAME" resource = Some (JStr candidate)).

(** An entry of [ERRORARRAY] as the data model has it. *)
Record APIError : Type := { errorcode : Z; errormessage : string }.

Definition is_error_entry (entry : Json) (e : APIError) : Prop :=
  json_field "ERRORMESSAGE" entry = Some (JStr (errormessage e)) ∧
  json_field "ERRORCODE" entry = Some (JInt (errorcode e)).

(** The line of the report for one error. *)
Definition report_line (e : APIError) : string :=
  nl_tab +:+ errormessage e +:+ " (Error Code: " +:+ pretty (errorcode e) +:+ ")".

Fixpoint concat_lines (lines : list string) : string :=
  match lines with
  | [] => EmptyString
  | line :: rest => line +:+ concat_lines rest
  end.

Definition error_report (errors : list APIError) : string :=
  "The Linode API call failed with the following error(s)." +:+
  concat_lines (map report_line errors).

(** The request [_linodeAPICall] sends for [apiParams] from state [st]. *)
Definition request_of (st : State) (apiParams : Params) : Params :=
  dict_set "api_key" (_LINODE_API_KEY st) apiParams.

(** The effects of a complete update, in order. *)
Definition update_effects : list Effect :=
  [Calls (Some "domain.list"); Calls (Some "domain.resource.list");
   Calls (Some "domain.resource.update"); WritesCache].

(** The update request of a log got a reply without errors. *)
Definition update_returned (log : list Event) : Prop :=
  ∃ params obj, EvRequest params ∈ log ∧
                dict_get "api_action" params = Some "domain.resource.update" ∧
                linode_api w params = ReplyJSON obj ∧ no_errors obj = true.

(** The message of [_normalizeDomainID] when nothing matches. *)
Definition unknown_domain_message (candidate : string) : string :=
  "The supplied Domain ID/domain name " +:+ dq +:+ candidate +:+ dq +:+
  " is invalid or is not associated with the supplied Linode API key.".

(** The lines the skip path prints. *)
Definition skip_prints (args : Args) (ip : string) : list Event :=
  [EvPrint ("The target IP address " +:+ dq +:+ ip +:+ dq +:+
            " is already current for Resource ID " +:+ dq +:+ resourceID args +:+ dq +:+
            " with Domain ID " +:+ dq +:+ domainID args +:+ dq +:+ ".");
   EvPrint "No update is needed.";
   EvPrint "Terminating."].

(** What the run has logged when [_main] reaches its cache test: the fetch
    of the external address, when there was no [-ip] flag. *)
Definition ip_events (args : Args) : list Event :=
  match ip args with
  | Some _ => []
  | None => [EvFetch _IP_FINDER_URL]
  end.

(** The state in which [_main] reaches its cache test. *)
Definition at_cache_test (args : Args) : State :=
  {| _LINODE_API_KEY := apiKey args; events := ip_events args |}.

(** The cache a successful update writes. *)
Definition cache_after (args : Args) (ip : string) : Cache :=
  <[cache_key args := {["ip" := ip]}]> (cache_file w).

(** The lines a successful update prints. *)
Definition update_prints (args : Args) (ip : string) : list Event :=
  [EvPrint ("The target IP address for Resource ID " +:+ dq +:+ resourceID args +:+ dq +:+
            " with Domain ID " +:+ dq +:+ domainID args +:+ dq +:+
            " was successfully updated to " +:+ dq +:+ ip +:+ dq +:+ ".");
   EvPrint "Terminating."].

(** A run that went through the whole update: the three requests, each
    answered without errors, then the cache write, then the two lines. *)
Definition completed_update (start : State) (args : Args) (ip : string)
    (outcome : Res unit * State) : Prop :=
  ∃ domainId resourceId,
    let list_domains := [("api_action", "domain.list"); ("api_key", apiKey args)] in
    let list_resources := [("api_action", "domain.resource.list"); ("DomainID", domainId);
                           ("api_key", apiKey args)] in
    let update := [("api_action", "domain.resource.update"); ("DomainID", domainId);
                   ("ResourceID", resourceId); ("target", ip);
                   ("api_key", apiKey args)] in
    outcome = (Exit 0,
               log_to start
                 ([EvRequest list_domains; EvRequest list_resources; EvRequest update;
                   EvCacheWrite cache_filename (cache_after args ip)] ++
                  update_prints args ip)) ∧
    ∃ obj, linode_api w update = ReplyJSON obj ∧ no_errors obj = true.

(** A run that failed: it did not leave with status 0, and what it did to
    the provider is a beginning of the update sequence, of [least] calls or
    more, that stops before the cache write. *)
Definition failed_run (least : nat) (start : State) (outcome : Res unit * State) : Prop :=
  ∃ log n, outcome.2 = log_to start log ∧ failed outcome.1 ∧
           (least ≤ n ≤ 3)%nat ∧ effects log = take n update_effects.

(** The invariant as the specification words it: every run either skips on
    a cache hit, or makes the three calls and then writes the cache. *)
Definition skips_or_updates (args : Args) (outcome : Res unit * State) : Prop :=
  (∃ ip, desired_ip args = Some ip ∧
         cache_is_current (cache_file w) (cache_key args) ip = true ∧
         effects (events outcome.2) = []) ∨
  effects (events outcome.2) = update_effects.

(** The failure of domain resolution as the specification words it: a fatal
    report that names the candidate and the credential. *)
Definition names_candidate_and_credential
    (candidate : string) (st : State) (outcome : Res string * State) : Prop :=
  ∃ message,
    outcome = (Exit (-1),
               log_to st (EvRequest (request_of st [("api_action", "domain.list")]) ::
                          error_prints message None)) ∧
    contains candidate message = true ∧
    contains (_LINODE_API_KEY st) message = true.

(** The command line with the address put where the [-ip] flag goes. *)
Definition with_ip (args : Args) (ip : string) : Args :=
  {| apiKey := apiKey args; domainID := domainID args; resourceID := resourceID args;
     ip := Some ip |}.

(** ** Vocabulary of the further properties *)

(** The message of [_normalizeResourceID] when nothing matches. *)
Definition unknown_resource_message (domainID candidate : string) : string :=
  "The supplied Resource ID/name " +:+ dq +:+ candidate +:+ dq +:+
  " is invalid or is not associated with Domain ID " +:+ dq +:+ domainID +:+ dq +:+ ".".

(** The request of [_updateDynDNS], before the credential is added. *)
Definition update_params (domainID resourceID target : string) : Params :=
  [("api_action", "domain.resource.update"); ("DomainID", domainID);
   ("ResourceID", resourceID); ("target", target)].

(** A part of the log that holds printed lines only. *)
Definition only_prints (log : list Event) : Prop :=
  Forall (λ e, ∃ line, e = EvPrint line) log.

(** What every function of the script keeps to, on the part of the log it
    adds: each request carries the global credential under [api_key]; a
    [sys.exit] comes right after the line "Terminating."; and, unless
    [fetching], the IP finder is not contacted. *)
Definition tidy {A} (fetching : bool) (key : string) (r : Res A) (log : list Event) : Prop :=
  (∀ params, EvRequest params ∈ log → dict_get "api_key" params = Some key) ∧
  (∀ status, r = Exit status → ∃ before, log = before ++ [EvPrint "Terminating."]) ∧
  (fetching = false → ∀ url, EvFetch url ∉ log).

(** [m], run from [st], leaves the global alone and adds a tidy part to the
    log. *)
Definition tidy_at {A} (fetching : bool) (m : M A) (st : State) : Prop :=
  ∃ log, (m st).2 = log_to st log ∧ tidy fetching (_LINODE_API_KEY st) (m st).1 log.

(** ** Basic facts *)

Lemma log_to_log_to st l1 l2 : log_to (log_to st l1) l2 = log_to st (l1 ++ l2).
Proof. unfold log_to; simpl. by rewrite <- app_assoc. Qed.

Lemma effects_app l1 l2 : effects (l1 ++ l2) = effects l1 ++ effects l2.
Proof.
  induction l1 as [|e l1 IH]; [done|].
  destruct e; simpl; by rewrite ?IH.
Qed.

Lemma string_app_assoc (a b c : string) : (a +:+ b) +:+ c = a +:+ b +:+ c.
Proof.
  induction a as [|x a IH]; [done|].
  change (String x ((a +:+ b) +:+ c) = String x (a +:+ b +:+ c)).
  by rewrite IH.
Qed.

Lemma handleError_eq {A} message ex st :
  @_handleError A message ex st = (Exit (-1), log_to st (error_prints message ex)).
Proof.
  destruct ex; unfold _handleError, error_prints, log_to, print, emit, sys_exit,
    mbind, M_mbind, M_bind, mret, M_mret, M_ret; simpl.
  all: rewrite <- ?app_assoc; reflexivity.
Qed.

Lemma effects_error_prints message ex : effects (error_prints message ex) = [].
Proof. by destruct ex. Qed.

Ltac unfold_script :=
  unfold mbind, M_mbind, M_bind, Res_mbind, mret, M_mret, M_ret, Res_mret,
    lift, print, emit, sys_exit, get_api_key, set_api_key in *.

Ltac log_norm := unfold log_to; simpl; rewrite <- ?app_assoc; simpl.

Lemma py_getitem_field obj k v : py_getitem obj k = Ret v ↔ json_field k obj = Some v.
Proof.
  destruct obj; simpl; try (split; discriminate).
  destruct (dict_get k items); split; congruence.
Qed.

Lemma py_getitem_no_exit obj k status : py_getitem obj k ≠ Exit status.
Proof. destruct obj; simpl; try discriminate. by destruct (dict_get k items). Qed.

Lemma error_lines_no_exit api_errors errorMessage status :
  error_lines api_errors errorMessage ≠ Exit status.
Proof.
  revert errorMessage. induction api_errors as [|error rest IH]; intros acc; simpl; [done|].
  unfold_script.
  destruct (py_getitem error "ERRORMESSAGE") as [message| |] eqn:Hm;
    [|by apply py_getitem_no_exit in Hm|done].
  destruct message; simpl; try done.
  destruct (py_getitem error "ERRORCODE") as [code| |] eqn:Hc;
    [|by apply py_getitem_no_exit in Hc|done].
  apply IH.
Qed.

(** *** The API client *)

Lemma linodeAPICall_returns apiParams st obj :
  linode_api w (request_of st apiParams) = ReplyJSON obj →
  no_errors obj = true →
  _linodeAPICall apiParams st = (Ret obj, log_to st [EvRequest (request_of st apiParams)]).
Proof.
  intros Hreply Hok. unfold _linodeAPICall, request_of in *. unfold_script. simpl.
  rewrite Hreply. unfold no_errors in Hok.
  destruct obj; try discriminate. simpl in *.
  destruct (dict_get "ERRORARRAY" items) as [api_errors|]; [|discriminate].
  destruct (py_len api_errors) as [[|n]| |]; try discriminate. reflexivity.
Qed.

Lemma linodeAPICall_cases apiParams st :
  (∃ obj, linode_api w (request_of st apiParams) = ReplyJSON obj ∧ no_errors obj = true ∧
          _linodeAPICall apiParams st =
            (Ret obj, log_to st [EvRequest (request_of st apiParams)])) ∨
  (∃ r prints, failed r ∧ effects prints = [] ∧
               _linodeAPICall apiParams st =
                 (r, log_to st (EvRequest (request_of st apiParams) :: prints))).
Proof.
  destruct (linode_api w (request_of st apiParams)) as [cause|cause|obj] eqn:Hreply.
  - right. exists (Exit (-1)), (error_prints "An error occurred while connecting to the Linode API." (Some cause)).
    split; [done|]. split; [done|].
    unfold _linodeAPICall, request_of in *. unfold_script. simpl. rewrite Hreply.
    rewrite handleError_eq. by log_norm.
  - right. exists (Exit (-1)), (error_prints "Couldn't parse JSON response from Linode API." (Some cause)).
    split; [done|]. split; [done|].
    unfold _linodeAPICall, request_of in *. unfold_script. simpl. rewrite Hreply.
    rewrite handleError_eq. by log_norm.
  - destruct (no_errors obj) eqn:Hok.
    + left. exists obj. eauto using linodeAPICall_returns.
    + right. unfold _linodeAPICall, request_of in *. unfold_script. simpl. rewrite Hreply.
      unfold no_errors in Hok.
      destruct (py_getitem obj "ERRORARRAY") as [api_errors|status|e] eqn:Hget.
      2:{ by apply py_getitem_no_exit in Hget. }
      2:{ exists (Raise e), []. done. }
      apply py_getitem_field in Hget. rewrite Hget in Hok.
      destruct (py_len api_errors) as [[|n]|status|e] eqn:Hlen; try discriminate.
      * simpl. destruct (py_iter api_errors) as [errors|status|e] eqn:Hiter; simpl.
        -- destruct (error_lines errors _) as [errorMessage|status|e] eqn:Hlines.
           ++ exists (Exit (-1)), (error_prints errorMessage None).
              rewrite handleError_eq. split; [done|]. split; [done|]. by log_norm.
           ++ by apply error_lines_no_exit in Hlines.
           ++ exists (Raise e), []. done.
        -- by destruct api_errors.
        -- exists (Raise e), []. done.
      * by destruct api_errors.
      * exists (Raise e), []. done.
Qed.

Lemma string_app_nil_r (a : string) : a +:+ EmptyString = a.
Proof.
  induction a as [|x a IH]; [done|].
  change (String x (a +:+ EmptyString) = String x a). by rewrite IH.
Qed.

Lemma error_lines_report entries errors errorMessage :
  Forall2 is_error_entry entries errors →
  error_lines entries errorMessage =
    Ret (errorMessage +:+ concat_lines (map report_line errors)).
Proof.
  intros Hentries. revert errorMessage.
  induction Hentries as [|entry e entries errors [Hmessage Hcode] _ IH]; intros acc; simpl.
  - by rewrite string_app_nil_r.
  - apply py_getitem_field in Hmessage, Hcode. unfold_script.
    rewrite Hmessage. simpl. rewrite Hcode, IH. simpl.
    unfold report_line. by rewrite !string_app_assoc.
Qed.

(** C6.  When the parsed reply carries a non-empty [ERRORARRAY] of error
    entries (each with its message and its numeric code), [_linodeAPICall]
    returns nothing to its caller: it prints one report, made of the heading
    followed by one line per entry with that entry's message and code, and
    leaves through [sys.exit(-1)]. *)
Theorem linodeAPICall_reports_all_errors apiParams st obj entries errors :
  linode_api w (request_of st apiParams) = ReplyJSON obj →
  json_field "ERRORARRAY" obj = Some (JList entries) →
  entries ≠ [] →
  Forall2 is_error_entry entries errors →
  _linodeAPICall apiParams st =
    (Exit (-1),
     log_to st (EvRequest (request_of st apiParams) ::
                error_prints (error_report errors) None)).
Proof.
  intros Hreply Harray Hne Hentries.
  unfold _linodeAPICall, request_of in *. unfold_script. simpl. rewrite Hreply.
  apply py_getitem_field in Harray. rewrite Harray. simpl.
  destruct entries as [|entry entries]; [done|].
  rewrite (error_lines_report _ _ _ Hentries).
  change (0 <? length (entry :: entries))%nat with true. cbv iota.
  rewrite handleError_eq. by log_norm.
Qed.

(** *** The resolver loops *)

Lemma py_eq_str_true obj s : py_eq_str obj s = true ↔ obj = JStr s.
Proof.
  destruct obj; simpl; try (split; discriminate).
  rewrite String.eqb_eq. split; congruence.
Qed.

Lemma py_eq_str_false obj s : py_eq_str obj s = false ↔ obj ≠ JStr s.
Proof.
  rewrite <- py_eq_str_true. destruct (py_eq_str obj s); split; congruence.
Qed.

Lemma find_domain_passes candidate domain rest :
  domain_passed_over candidate domain →
  find_domain candidate (domain :: rest) = find_domain candidate rest.
Proof.
  intros (id & name & Hid & Hname & Hne_id & Hne_name). simpl. unfold_script.
  apply py_getitem_field in Hid, Hname. rewrite Hid.
  apply String.eqb_neq in Hne_id. rewrite Hne_id, Hname.
  apply py_eq_str_false in Hne_name. by rewrite Hne_name.
Qed.

Lemma find_domain_takes candidate domain rest domainID :
  domain_selected candidate domain domainID →
  find_domain candidate (domain :: rest) = Ret (Some domainID).
Proof.
  intros (id & Hid & -> & Hmatch). simpl. unfold_script.
  apply py_getitem_field in Hid. rewrite Hid.
  destruct (String.eqb_spec (py_str repr_str id) candidate) as [|Hne]; [done|].
  destruct Hmatch as [|Hname]; [done|].
  apply py_getitem_field in Hname. rewrite Hname. simpl.
  by rewrite String.eqb_refl.
Qed.

Lemma find_domain_head candidate domain rest :
  domain_passed_over candidate domain ∨
  (∃ domainID, domain_selected candidate domain domainID) ∨
  (∃ e, find_domain candidate (domain :: rest) = Raise e).
Proof.
  simpl. unfold_script.
  destruct (py_getitem domain "DOMAINID") as [id|status|e] eqn:Hid;
    [|by apply py_getitem_no_exit in Hid|eauto].
  apply py_getitem_field in Hid.
  destruct (String.eqb_spec (py_str repr_str id) candidate) as [Heq|Hne].
  { right; left. exists (py_str repr_str id), id. eauto. }
  destruct (py_getitem domain "DOMAIN") as [name|status|e] eqn:Hname;
    [|by apply py_getitem_no_exit in Hname|eauto].
  apply py_getitem_field in Hname.
  destruct (py_eq_str name candidate) eqn:Heq.
  - apply py_eq_str_true in Heq as ->.
    right; left. exists (py_str repr_str id), id. eauto.
  - apply py_eq_str_false in Heq. left. exists id, name. eauto.
Qed.

Lemma find_domain_selects candidate domains domainID :
  find_domain candidate domains = Ret (Some domainID) ↔
  ∃ before domain after,
    domains = before ++ domain :: after ∧
    Forall (domain_passed_over candidate) before ∧
    domain_selected candidate domain domainID.
Proof.
  split.
  - induction domains as [|domain rest IH]; [done|]. intros Hfind.
    destruct (find_domain_head candidate domain rest) as [Hpass|[[d Hsel]|[e He]]].
    + rewrite (find_domain_passes _ _ _ Hpass) in Hfind.
      destruct (IH Hfind) as (before & domain' & after & -> & Hbefore & Hsel).
      exists (domain :: before), domain', after. eauto.
    + rewrite (find_domain_takes _ _ rest _ Hsel) in Hfind. simplify_eq.
      exists [], domain, rest. eauto.
    + congruence.
  - intros (before & domain & after & -> & Hbefore & Hsel).
    induction Hbefore as [|x before Hx _ IH]; simpl app.
    + by apply find_domain_takes.
    + by rewrite find_domain_passes.
Qed.

Lemma find_domain_none candidate domains :
  Forall (domain_passed_over candidate) domains →
  find_domain candidate domains = Ret None.
Proof.
  induction 1 as [|domain rest Hpass _ IH]; [done|]. by rewrite find_domain_passes.
Qed.

Lemma find_resource_passes candidate resource rest :
  resource_passed_over candidate resource →
  find_resource candidate (resource :: rest) = find_resource candidate rest.
Proof.
  intros (type & id & Htype & Hid & Hwhy). simpl. unfold_script.
  apply py_getitem_field in Htype, Hid. rewrite Htype. simpl. rewrite Hid.
  destruct Hwhy as [Hne_type|(Hne_id & name & Hname & Hne_name)].
  - apply String.eqb_neq in Hne_type. by rewrite Hne_type.
  - destruct (String.eqb (lower type) "a"); [|done].
    apply String.eqb_neq in Hne_id. rewrite Hne_id.
    apply py_getitem_field in Hname. rewrite Hname.
    apply py_eq_str_false in Hne_name. by rewrite Hne_name.
Qed.

Lemma find_resource_takes candidate resource rest resourceID :
  resource_selected candidate resource resourceID →
  find_resource candidate (resource :: rest) = Ret (Some resourceID).
Proof.
  intros (type & id & Htype & Ha & Hid & -> & Hmatch). simpl. unfold_script.
  apply py_getitem_field in Htype, Hid. rewrite Htype. simpl. rewrite Hid, Ha. simpl.
  destruct (String.eqb_spec (py_str repr_str id) candidate) as [|Hne]; [done|].
  destruct Hmatch as [|Hname]; [done|].
  apply py_getitem_field in Hname. rewrite Hname. simpl.
  by rewrite String.eqb_refl.
Qed.

Lemma find_resource_head candidate resource rest :
  resource_passed_over candidate resource ∨
  (∃ resourceID, resource_selected candidate resource resourceID) ∨
  (∃ e, find_resource candidate (resource :: rest) = Raise e).
Proof.
  simpl. unfold_script.
  destruct (py_getitem resource "TYPE") as [type|status|e] eqn:Htype;
    [|by apply py_getitem_no_exit in Htype|eauto].
  apply py_getitem_field in Htype.
  destruct type as [| | | |type| |]; simpl; eauto.
  destruct (py_getitem resource "RESOURCEID") as [id|status|e] eqn:Hid;
    [|by apply py_getitem_no_exit in Hid|eauto].
  apply py_getitem_field in Hid.
  destruct (String.eqb_spec (lower type) "a") as [Ha|Hna].
  2:{ left. exists type, id. eauto. }
  destruct (String.eqb_spec (py_str repr_str id) candidate) as [Heq|Hne].
  { right; left. exists (py_str repr_str id), type, id. eauto 10. }
  destruct (py_getitem resource "NAME") as [name|status|e] eqn:Hname;
    [|by apply py_getitem_no_exit in Hname|eauto].
  apply py_getitem_field in Hname.
  destruct (py_eq_str name candidate) eqn:Heq.
  - apply py_eq_str_true in Heq as ->.
    right; left. exists (py_str repr_str id), type, id. eauto 10.
  - apply py_eq_str_false in Heq. left. exists type, id. eauto 10.
Qed.

Lemma find_resource_selects candidate resources resourceID :
  find_resource candidate resources = Ret (Some resourceID) ↔
  ∃ before resource after,
    resources = before ++ resource :: after ∧
    Forall (resource_passed_over candidate) before ∧
    resource_selected candidate resource resourceID.
Proof.
  split.
  - induction resources as [|resource rest IH]; [done|]. intros Hfind.
    destruct (find_resource_head candidate resource rest) as [Hpass|[[d Hsel]|[e He]]].
    + rewrite (find_resource_passes _ _ _ Hpass) in Hfind.
      destruct (IH Hfind) as (before & resource' & after & -> & Hbefore & Hsel).
      exists (resource :: before), resource', after. eauto.
    + rewrite (find_resource_takes _ _ rest _ Hsel) in Hfind. simplify_eq.
      exists [], resource, rest. eauto.
    + congruence.
  - intros (before & resource & after & -> & Hbefore & Hsel).
    induction Hbefore as [|x before Hx _ IH]; simpl app.
    + by apply find_resource_takes.
    + by rewrite find_resource_passes.
Qed.

(** *** The resolvers *)

Lemma normalizeDomainID_scan candidate st obj domains :
  linode_api w (request_of st [("api_action", "domain.list")]) = ReplyJSON obj →
  no_errors obj = true →
  json_field "DATA" obj = Some (JList domains) →
  _normalizeDomainID candidate st =
    let st' := log_to st [EvRequest (request_of st [("api_action", "domain.list")])] in
    match find_domain candidate domains with
    | Ret (Some domainID) => (Ret domainID, st')
    | Ret None =>
        (Exit (-1), log_to st' (error_prints (unknown_domain_message candidate) None))
    | Exit status => (Exit status, st')
    | Raise e => (Raise e, st')
    end.
Proof.
  intros Hreply Hok Hdata. unfold _normalizeDomainID.
  unfold mbind at 1, M_mbind at 1, M_bind at 1.
  rewrite (linodeAPICall_returns _ _ _ Hreply Hok).
  apply py_getitem_field in Hdata. unfold_script. rewrite Hdata. simpl.
  destruct (find_domain candidate domains) as [[domainID|]| |]; try done.
  by rewrite handleError_eq.
Qed.

Lemma normalizeResourceID_scan domainID candidate st obj resources :
  let request := request_of st [("api_action", "domain.resource.list"); ("DomainID", domainID)] in
  linode_api w request = ReplyJSON obj →
  no_errors obj = true →
  json_field "DATA" obj = Some (JList resources) →
  _normalizeResourceID domainID candidate st =
    let st' := log_to st [EvRequest request] in
    match find_resource candidate resources with
    | Ret (Some resourceID) => (Ret resourceID, st')
    | Ret None =>
        (Exit (-1),
         log_to st' (error_prints
                       ("The supplied Resource ID/name " +:+ dq +:+ candidate +:+ dq +:+
                        " is invalid or is not associated with Domain ID " +:+
                        dq +:+ domainID +:+ dq +:+ ".") None))
    | Exit status => (Exit status, st')
    | Raise e => (Raise e, st')
    end.
Proof.
  intros request Hreply Hok Hdata. unfold _normalizeResourceID.
  unfold mbind at 1, M_mbind at 1, M_bind at 1.
  rewrite (linodeAPICall_returns _ _ _ Hreply Hok).
  apply py_getitem_field in Hdata. unfold_script. rewrite Hdata. simpl.
  destruct (find_resource candidate resources) as [[resourceID|]| |]; try done.
  by rewrite handleError_eq.
Qed.

(** C4.  When the provider answers [domain.list] without errors and with the
    list [domains], [_normalizeDomainID] returns [domainID] exactly when the
    list splits into entries that were passed over (each with an ID and a
    name, neither equal to the candidate as a string), then an entry whose
    stringified ID is [domainID] and whose stringified ID or name is the
    candidate: the first match in the order of the reply wins, whatever
    comes after it. *)
Theorem normalizeDomainID_first_match candidate st obj domains domainID :
  linode_api w (request_of st [("api_action", "domain.list")]) = ReplyJSON obj →
  no_errors obj = true →
  json_field "DATA" obj = Some (JList domains) →
  (_normalizeDomainID candidate st).1 = Ret domainID ↔
  ∃ before domain after,
    domains = before ++ domain :: after ∧
    Forall (domain_passed_over candidate) before ∧
    domain_selected candidate domain domainID.
Proof.
  intros Hreply Hok Hdata.
  rewrite (normalizeDomainID_scan _ _ _ _ Hreply Hok Hdata), <- find_domain_selects.
  cbv zeta. destruct (find_domain candidate domains) as [[d|]| |]; simpl;
    split; congruence.
Qed.

(** C5.  When the provider answers [domain.resource.list] without errors and
    with the list [resources], [_normalizeResourceID] returns [resourceID]
    exactly when the list splits into entries that were passed over (not A
    records, or A records whose ID and name both differ from the candidate),
    then an entry whose type lower-cases to "a", whose stringified ID is
    [resourceID], and whose stringified ID or name is the candidate.  So a
    record of another type is never returned, and the first A record that
    matches wins. *)
Theorem normalizeResourceID_first_A_match domainID candidate st obj resources resourceID :
  linode_api w (request_of st [("api_action", "domain.resource.list");
                               ("DomainID", domainID)]) = ReplyJSON obj →
  no_errors obj = true →
  json_field "DATA" obj = Some (JList resources) →
  (_normalizeResourceID domainID candidate st).1 = Ret resourceID ↔
  ∃ before resource after,
    resources = before ++ resource :: after ∧
    Forall (resource_passed_over candidate) before ∧
    resource_selected candidate resource resourceID.
Proof.
  intros Hreply Hok Hdata.
  rewrite (normalizeResourceID_scan _ _ _ _ _ Hreply Hok Hdata), <- find_resource_selects.
  cbv zeta. destruct (find_resource candidate resources) as [[r|]| |]; simpl;
    split; congruence.
Qed.

Lemma prefix_app (s rest : string) : String.prefix s (s +:+ rest) = true.
Proof.
  induction s as [|c s IH]; [by destruct rest|].
  change (String.prefix (String c s) (String c (s +:+ rest)) = true).
  simpl. by destruct (Ascii.ascii_dec c c).
Qed.

Lemma contains_prefix (needle hay : string) :
  String.prefix needle hay = true → contains needle hay = true.
Proof.
  intros Hprefix. destruct hay as [|c hay].
  - change (String.prefix needle EmptyString || false = true). by rewrite Hprefix.
  - change (String.prefix needle (String c hay) || contains needle hay = true).
    by rewrite Hprefix.
Qed.

Lemma contains_app (needle before after : string) :
  contains needle (before +:+ needle +:+ after) = true.
Proof.
  induction before as [|c before IH].
  - change (contains needle (needle +:+ after) = true).
    apply contains_prefix, prefix_app.
  - change (String.prefix needle (String c (before +:+ needle +:+ after)) ||
            contains needle (before +:+ needle +:+ after) = true).
    rewrite IH. apply orb_true_r.
Qed.

Lemma prefix_split (s hay : string) :
  String.prefix s hay = true → ∃ rest, hay = s +:+ rest.
Proof.
  revert hay. induction s as [|c s IH]; intros hay Hprefix; [by exists hay|].
  destruct hay as [|c' hay]; [done|]. simpl in Hprefix.
  destruct (Ascii.ascii_dec c c') as [<-|]; [|done].
  destruct (IH _ Hprefix) as [rest ->]. by exists rest.
Qed.

(** [contains] decides being a substring. *)
Lemma contains_spec (needle hay : string) :
  contains needle hay = true ↔ ∃ before after, hay = before +:+ needle +:+ after.
Proof.
  split; [|intros (before & after & ->); apply contains_app].
  induction hay as [|c hay IH].
  - change (String.prefix needle EmptyString || false = true → 
            ∃ before after, EmptyString = before +:+ needle +:+ after).
    rewrite orb_false_r. intros [rest ->]%prefix_split. by exists EmptyString, rest.
  - change (String.prefix needle (String c hay) || contains needle hay = true →
            ∃ before after, String c hay = before +:+ needle +:+ after).
    intros [Hprefix|Hlater]%orb_true_iff.
    + apply prefix_split in Hprefix as [rest ->]. by exists EmptyString, rest.
    + destruct (IH Hlater) as (before & after & ->). by exists (String c before), after.
Qed.

(** C8, as the code has it.  When the provider answers [domain.list] without
    errors and every entry of the list is passed over (it has an ID and a
    name, and neither equals the candidate), [_normalizeDomainID] leaves
    through [_handleError]: after the one request it prints the report, whose
    message contains the candidate and is fixed by the candidate alone; the
    credential is referred to by the words "the supplied Linode API key" and
    its value is not put in the message. *)
Theorem normalizeDomainID_unknown_domain candidate st obj domains :
  linode_api w (request_of st [("api_action", "domain.list")]) = ReplyJSON obj →
  no_errors obj = true →
  json_field "DATA" obj = Some (JList domains) →
  Forall (domain_passed_over candidate) domains →
  _normalizeDomainID candidate st =
    (Exit (-1),
     log_to st (EvRequest (request_of st [("api_action", "domain.list")]) ::
                error_prints (unknown_domain_message candidate) None)) ∧
  contains candidate (unknown_domain_message candidate) = true.
Proof.
  intros Hreply Hok Hdata Hnone.
  split; [|unfold unknown_domain_message; rewrite <- string_app_assoc; apply contains_app].
  rewrite (normalizeDomainID_scan _ _ _ _ Hreply Hok Hdata), (find_domain_none _ _ Hnone).
  cbv zeta. by rewrite log_to_log_to.
Qed.

Lemma py_getitem_missing obj k :
  json_field k obj = None → py_getitem obj k = Raise (lookup_error obj k).
Proof. destruct obj; simpl; try done. by intros ->. Qed.

(** C10.  When the provider's reply parses to a value without the key
    [ERRORARRAY], [_linodeAPICall] ends right after the request with the
    exception of the failed lookup, which nothing catches: [KeyError] when the
    value is an object ([TypeError] when it is no object at all).  Nothing is
    printed and [_handleError] is not reached.  When the reply is an object
    with an [ERRORARRAY] of length zero but without [DATA], the call returns
    and the two list actions end with an uncaught [KeyError] for [DATA] in
    the same way. *)
Theorem missing_response_keys_raise_KeyError apiParams st obj :
  linode_api w (request_of st apiParams) = ReplyJSON obj →
  let st' := log_to st [EvRequest (request_of st apiParams)] in
  (json_field "ERRORARRAY" obj = None →
   _linodeAPICall apiParams st = (Raise (lookup_error obj "ERRORARRAY"), st') ∧
   ∀ items, obj = JDict items → lookup_error obj "ERRORARRAY" = KeyError "ERRORARRAY") ∧
  (no_errors obj = true → json_field "DATA" obj = None →
   (∀ candidate,
      apiParams = [("api_action", "domain.list")] →
      _normalizeDomainID candidate st = (Raise (KeyError "DATA"), st')) ∧
   (∀ domainID candidate,
      apiParams = [("api_action", "domain.resource.list"); ("DomainID", domainID)] →
      _normalizeResourceID domainID candidate st = (Raise (KeyError "DATA"), st'))).
Proof.
  intros Hreply st'. split.
  - intros Hmissing. split; [|by intros items ->].
    unfold _linodeAPICall, request_of in *. unfold_script. simpl.
    rewrite Hreply. by rewrite (py_getitem_missing _ _ Hmissing).
  - intros Hok Hmissing.
    assert (py_getitem obj "DATA" = Raise (KeyError "DATA")) as Hraise.
    { rewrite (py_getitem_missing _ _ Hmissing). by destruct obj. }
    split.
    + intros candidate ->. unfold _normalizeDomainID. unfold_script.
      rewrite (linodeAPICall_returns _ _ _ Hreply Hok). by rewrite Hraise.
    + intros domainID candidate ->. unfold _normalizeResourceID. unfold_script.
      rewrite (linodeAPICall_returns _ _ _ Hreply Hok). by rewrite Hraise.
Qed.

(** *** Validation and the update call *)

Lemma api_actions_app l1 l2 : api_actions (l1 ++ l2) = api_actions l1 ++ api_actions l2.
Proof.
  induction l1 as [|e l1 IH]; [done|].
  destruct e as [| |params|]; simpl; try done.
  destruct (dict_get "api_action" params); simpl; by rewrite IH.
Qed.

Lemma api_actions_error_prints message ex : api_actions (error_prints message ex) = [].
Proof. by destruct ex. Qed.

Lemma validateIP_eq ip st :
  _validateIP ip st =
    if inet_aton ip then (Ret (), st)
    else (Exit (-1),
          log_to st (error_prints ("The supplied IP address " +:+ dq +:+ ip +:+ dq +:+
                                   " is invalid.") (Some inet_aton_error))).
Proof.
  unfold _validateIP. destruct (inet_aton ip); [done|]. by rewrite handleError_eq.
Qed.

(** C7.  When the address parser rejects the target, [_updateDynDNS] leaves
    through [_handleError] with the invalid-address report and the log gains
    nothing but the lines of that report: no request to the provider is
    attempted. *)
Theorem updateDynDNS_validates_before_calling domainID resourceID target st :
  inet_aton target = false →
  _updateDynDNS domainID resourceID target st =
    (Exit (-1),
     log_to st (error_prints ("The supplied IP address " +:+ dq +:+ target +:+ dq +:+
                              " is invalid.") (Some inet_aton_error))) ∧
  api_actions (events (_updateDynDNS domainID resourceID target st).2) =
    api_actions (events st).
Proof.
  intros Hbad.
  assert (_updateDynDNS domainID resourceID target st =
          (Exit (-1),
           log_to st (error_prints ("The supplied IP address " +:+ dq +:+ target +:+ dq +:+
                                    " is invalid.") (Some inet_aton_error)))) as Heq.
  { unfold _updateDynDNS. unfold mbind at 1, M_mbind at 1, M_bind at 1.
    by rewrite validateIP_eq, Hbad. }
  split; [done|]. rewrite Heq. simpl. rewrite api_actions_app. simpl. apply app_nil_r.
Qed.

Lemma updateDynDNS_cases domainID resourceID target st :
  let request := request_of st [("api_action", "domain.resource.update");
                                ("DomainID", domainID); ("ResourceID", resourceID);
                                ("target", target)] in
  (∃ obj, linode_api w request = ReplyJSON obj ∧ no_errors obj = true ∧
          _updateDynDNS domainID resourceID target st =
            (Ret (), log_to st [EvRequest request])) ∨
  (∃ r n prints, failed r ∧ effects prints = [] ∧ (n ≤ 1)%nat ∧
                 _updateDynDNS domainID resourceID target st =
                   (r, log_to st (take n [EvRequest request] ++ prints))).
Proof.
  intros request. unfold _updateDynDNS.
  unfold_script. rewrite !validateIP_eq.
  destruct (inet_aton target).
  - destruct (linodeAPICall_cases
                [("api_action", "domain.resource.update"); ("DomainID", domainID);
                 ("ResourceID", resourceID); ("target", target)] st)
      as [(obj & Hreply & Hok & ->)|(r & prints & Hr & Hprints & ->)].
    + left. exists obj. done.
    + right. destruct r as [a|status|e]; [done|..].
      * exists (Exit status), 1%nat, prints. done.
      * exists (Raise e), 1%nat, prints. done.
  - right. eexists (Exit (-1)), 0%nat, _. split; [done|].
    split; [|split; [lia|reflexivity]]. apply effects_error_prints.
Qed.

Lemma normalizeDomainID_cases candidate st :
  let request := request_of st [("api_action", "domain.list")] in
  (∃ domainID, _normalizeDomainID candidate st = (Ret domainID, log_to st [EvRequest request])) ∨
  (∃ r prints, failed r ∧ effects prints = [] ∧
               _normalizeDomainID candidate st = (r, log_to st (EvRequest request :: prints))).
Proof.
  intros request. unfold _normalizeDomainID.
  unfold_script.
  destruct (linodeAPICall_cases [("api_action", "domain.list")] st)
    as [(obj & Hreply & Hok & ->)|(r & prints & Hr & Hprints & ->)].
  2:{ right. destruct r as [a|status|e]; [done|..].
      - by exists (Exit status), prints.
      - by exists (Raise e), prints. }
  fold request.
  destruct (py_getitem obj "DATA") as [data|status|e] eqn:Hdata;
    [|by apply py_getitem_no_exit in Hdata|right; by exists (Raise e), []].
  destruct (py_iter data) as [domains|status|e] eqn:Hiter;
    [|by destruct data|right; by exists (Raise e), []].
  destruct (find_domain candidate domains) as [[domainID|]|status|e] eqn:Hfind.
  - left. by exists domainID.
  - right. rewrite handleError_eq. eexists (Exit (-1)), _.
    split; [done|]. split; [apply effects_error_prints|]. by log_norm.
  - right. exfalso. clear -Hfind. revert Hfind.
    induction domains as [|domain rest IH]; [done|].
    destruct (find_domain_head candidate domain rest) as [Hpass|[[d Hsel]|[e He]]].
    + by rewrite find_domain_passes.
    + by rewrite (find_domain_takes _ _ rest _ Hsel).
    + by rewrite He.
  - right. by exists (Raise e), [].
Qed.

Lemma normalizeResourceID_cases domainID candidate st :
  let request := request_of st [("api_action", "domain.resource.list");
                                ("DomainID", domainID)] in
  (∃ resourceID, _normalizeResourceID domainID candidate st =
                   (Ret resourceID, log_to st [EvRequest request])) ∨
  (∃ r prints, failed r ∧ effects prints = [] ∧
               _normalizeResourceID domainID candidate st =
                 (r, log_to st (EvRequest request :: prints))).
Proof.
  intros request. unfold _normalizeResourceID.
  unfold_script.
  destruct (linodeAPICall_cases [("api_action", "domain.resource.list");
                                 ("DomainID", domainID)] st)
    as [(obj & Hreply & Hok & ->)|(r & prints & Hr & Hprints & ->)].
  2:{ right. destruct r as [a|status|e]; [done|..].
      - by exists (Exit status), prints.
      - by exists (Raise e), prints. }
  fold request.
  destruct (py_getitem obj "DATA") as [data|status|e] eqn:Hdata;
    [|by apply py_getitem_no_exit in Hdata|right; by exists (Raise e), []].
  destruct (py_iter data) as [resources|status|e] eqn:Hiter;
    [|by destruct data|right; by exists (Raise e), []].
  destruct (find_resource candidate resources) as [[resourceID|]|status|e] eqn:Hfind.
  - left. by exists resourceID.
  - right. rewrite handleError_eq. eexists (Exit (-1)), _.
    split; [done|]. split; [apply effects_error_prints|]. by log_norm.
  - right. exfalso. clear -Hfind. revert Hfind.
    induction resources as [|resource rest IH]; [done|].
    destruct (find_resource_head candidate resource rest) as [Hpass|[[d Hsel]|[e He]]].
    + by rewrite find_resource_passes.
    + by rewrite (find_resource_takes _ _ rest _ Hsel).
    + by rewrite He.
  - right. by exists (Raise e), [].
Qed.

(** *** The run *)

Lemma getExternalIP_eq st :
  _getExternalIP st =
    match ip_finder w with
    | FetchBody text =>
        if inet_aton (strip text)
        then (Ret (strip text), log_to st [EvFetch _IP_FINDER_URL])
        else (Exit (-1),
              log_to st (EvFetch _IP_FINDER_URL ::
                         error_prints ("The supplied IP address " +:+ dq +:+ strip text +:+
                                       dq +:+ " is invalid.") (Some inet_aton_error)))
    | FetchFailed cause =>
        (Exit (-1),
         log_to st (EvFetch _IP_FINDER_URL ::
                    error_prints "Could not determine your external IP address."
                                 (Some cause)))
    end.
Proof.
  unfold _getExternalIP. unfold_script. destruct (ip_finder w) as [cause|text].
  - rewrite handleError_eq. by log_norm.
  - unfold M_ret. rewrite validateIP_eq. destruct (inet_aton (strip text)); [done|].
    by log_norm.
Qed.

Lemma cache_set_ip (cache : Cache) key ip :
  <[key := <["ip" := ip]> (default ∅ (<[key := ∅]> cache !! key))]> (<[key := ∅]> cache) =
  <[key := {["ip" := ip]}]> cache.
Proof. by rewrite lookup_insert_eq, insert_insert_eq. Qed.

Lemma main_with_flag args flag st :
  ip args = Some flag →
  let start := {| _LINODE_API_KEY := apiKey args; events := events st |} in
  if cache_is_current (cache_file w) (cache_key args) flag
  then _main args st = (Exit 0, log_to start (skip_prints args flag))
  else completed_update start args flag (_main args st) ∨ failed_run 1 start (_main args st).
Proof.
  intros Hip start. unfold _main. unfold_script. rewrite Hip. fold start.
  unfold cache_key.
  destruct (cache_is_current _ _ flag); [by log_norm|].
  rewrite cache_set_ip.
  destruct (normalizeDomainID_cases (domainID args) start)
    as [(domainId & ->)|(r & prints & Hr & Hprints & ->)].
  2:{ right. exists (EvRequest (request_of start [("api_action", "domain.list")]) :: prints), 1%nat.
      destruct r; try done; simpl; rewrite Hprints; split_and!; done || lia. }
  set (list_domains := request_of start [("api_action", "domain.list")]).
  set (st1 := log_to start [EvRequest list_domains]).
  destruct (normalizeResourceID_cases domainId (resourceID args) st1)
    as [(resourceId & ->)|(r & prints & Hr & Hprints & ->)].
  2:{ right. eexists (EvRequest list_domains :: EvRequest _ :: prints), 2%nat.
      destruct r; try done; simpl; rewrite Hprints;
        (split_and!; [by log_norm|done|lia..|done]). }
  set (list_resources := request_of st1 _).
  set (st2 := log_to st1 [EvRequest list_resources]).
  destruct (updateDynDNS_cases domainId resourceId flag st2)
    as [(obj & Hreply & Hok & ->)|(r & n & prints & Hr & Hprints & Hn & ->)].
  2:{ right. eexists (EvRequest list_domains :: EvRequest list_resources ::
                      take n [EvRequest _] ++ prints), (2 + n)%nat.
      assert (n = 0 ∨ n = 1)%nat as [-> | ->] by lia;
        destruct r; try done; simpl; rewrite Hprints;
        (split_and!; [by log_norm|done|lia..|done]). }
  set (update := request_of st2 _) in *.
  unfold write_cache. destruct (cache_writable w).
  - left. exists domainId, resourceId. split; [by log_norm|]. by exists obj.
  - right. exists [EvRequest list_domains; EvRequest list_resources; EvRequest update], 3%nat.
    simpl. split_and!; [by log_norm|done|lia..|done].
Qed.

Lemma main_after_lookup args text st :
  ip args = None →
  ip_finder w = FetchBody text →
  inet_aton (strip text) = true →
  _main args st = _main (with_ip args (strip text)) (log_to st [EvFetch _IP_FINDER_URL]).
Proof.
  intros Hip Hfetch Hvalid. unfold _main. unfold_script. rewrite Hip. simpl.
  by rewrite getExternalIP_eq, Hfetch, Hvalid.
Qed.

Lemma main_lookup_fails args st :
  ip args = None →
  desired_ip args = None →
  ∃ prints, effects prints = [] ∧
            _main args st =
              (Exit (-1),
               log_to {| _LINODE_API_KEY := apiKey args; events := events st |}
                      (EvFetch _IP_FINDER_URL :: prints)).
Proof.
  intros Hip Hnone. unfold desired_ip in Hnone. rewrite Hip in Hnone.
  unfold _main. unfold_script. rewrite Hip, getExternalIP_eq. simpl.
  destruct (ip_finder w) as [cause|text].
  - eexists. split; [|reflexivity]. apply effects_error_prints.
  - destruct (inet_aton (strip text)); [done|].
    eexists. split; [|reflexivity]. apply effects_error_prints.
Qed.

Lemma run_cases args :
  match desired_ip args with
  | Some ip0 =>
      if cache_is_current (cache_file w) (cache_key args) ip0
      then run args = (Exit 0, log_to (at_cache_test args) (skip_prints args ip0))
      else completed_update (at_cache_test args) args ip0 (run args) ∨
           failed_run 1 (at_cache_test args) (run args)
  | None => failed_run 0 (at_cache_test args) (run args)
  end.
Proof.
  unfold run. set (st0 := {| _LINODE_API_KEY := EmptyString; events := [] |}).
  destruct (ip args) as [flag|] eqn:Hip.
  - pose proof (main_with_flag args flag st0 Hip) as Hmain.
    unfold desired_ip, at_cache_test, ip_events. rewrite Hip. exact Hmain.
  - destruct (desired_ip args) as [ip0|] eqn:Hdesired.
    + unfold desired_ip in Hdesired. rewrite Hip in Hdesired.
      destruct (ip_finder w) as [cause|text] eqn:Hfetch; [done|].
      destruct (inet_aton (strip text)) eqn:Hvalid; [|done]. simplify_eq.
      rewrite (main_after_lookup args text st0 Hip Hfetch Hvalid).
      pose proof (main_with_flag (with_ip args (strip text)) (strip text)
                    (log_to st0 [EvFetch _IP_FINDER_URL]) eq_refl) as Hmain.
      unfold at_cache_test, ip_events. rewrite Hip. exact Hmain.
    + destruct (main_lookup_fails args st0 Hip Hdesired) as (prints & Hprints & ->).
      exists prints, 0%nat. unfold at_cache_test, ip_events. rewrite Hip.
      split_and!; [by log_norm|done|lia..|done].
Qed.

Lemma effects_ip_events args : effects (ip_events args) = [].
Proof. unfold ip_events. by destruct (ip args). Qed.

Lemma effects_at_cache_test args log :
  effects (events (log_to (at_cache_test args) log)) = effects log.
Proof. simpl. by rewrite effects_app, effects_ip_events. Qed.

Lemma cache_writes_app l1 l2 : cache_writes (l1 ++ l2) = cache_writes l1 ++ cache_writes l2.
Proof.
  induction l1 as [|e l1 IH]; [done|]. destruct e; simpl; by rewrite ?IH.
Qed.

Lemma cache_writes_none log : WritesCache ∉ effects log → cache_writes log = [].
Proof.
  induction log as [|e log IH]; [done|].
  destruct e; simpl; rewrite ?not_elem_of_cons; try done; intros [? ?]; auto; done.
Qed.

Lemma cache_is_current_stored (cache : Cache) key ip :
  cache_is_current cache key ip = true ↔ stored_ip cache key = Some ip.
Proof.
  unfold cache_is_current, stored_ip.
  destruct (cache !! key) as [section|]; simpl; [|split; discriminate].
  destruct (section !! "ip") as [stored|]; [|split; discriminate].
  rewrite String.eqb_eq. split; congruence.
Qed.

Lemma failed_not_success (r : Res unit) : failed r → r ≠ Exit 0.
Proof. destruct r; simpl; intros; congruence || lia || done. Qed.

Lemma run_skipped_iff args ip0 :
  desired_ip args = Some ip0 →
  skipped (run args) ↔ stored_ip (cache_file w) (cache_key args) = Some ip0.
Proof.
  intros Hdesired. rewrite <- cache_is_current_stored.
  pose proof (run_cases args) as Hrun. rewrite Hdesired in Hrun.
  destruct (cache_is_current _ _ ip0).
  - rewrite Hrun. unfold skipped. cbn [fst snd]. by rewrite effects_at_cache_test.
  - split; [|done]. intros [Hexit Heffects].
    destruct Hrun as [(d & r & Hrun & _)|(log & n & _ & Hfailed & _)].
    + rewrite Hrun in Heffects. cbn [fst snd] in Heffects.
      rewrite effects_at_cache_test in Heffects. done.
    + by apply failed_not_success in Hfailed.
Qed.

(** C1, as the code has it.  Every run is of one of three kinds.  (a) It
    finds the desired address in the cache, leaves with status 0, and has
    neither called the provider nor written the cache.  (b) It does not find
    it, leaves with status 0, and has made exactly the [domain.list] call, the
    [domain.resource.list] call and the [domain.resource.update] call, in
    that order, then one cache write, the update having been answered without
    errors.  (c) It fails (status -1 or an uncaught exception), has made only
    a beginning of those three calls in that order, and has written no cache:
    nothing is recorded unless the update returned. *)
Theorem run_skips_updates_or_fails args :
  (∃ ip0, desired_ip args = Some ip0 ∧
          cache_is_current (cache_file w) (cache_key args) ip0 = true ∧
          (run args).1 = Exit 0 ∧
          effects (events (run args).2) = []) ∨
  (∃ ip0, desired_ip args = Some ip0 ∧
          cache_is_current (cache_file w) (cache_key args) ip0 = false ∧
          (run args).1 = Exit 0 ∧
          effects (events (run args).2) = update_effects ∧
          update_returned (events (run args).2)) ∨
  (failed (run args).1 ∧
   cache_writes (events (run args).2) = [] ∧
   ∃ n, (n ≤ 3)%nat ∧ effects (events (run args).2) = take n update_effects).
Proof.
  pose proof (run_cases args) as Hrun.
  assert (∀ least, failed_run least (at_cache_test args) (run args) →
            failed (run args).1 ∧ cache_writes (events (run args).2) = [] ∧
            ∃ n, (n ≤ 3)%nat ∧ effects (events (run args).2) = take n update_effects)
    as Hfailed.
  { intros least (log & n & Hlog & Hfail & Hn & Heffects).
    assert (effects (events (run args).2) = take n update_effects) as Hall
      by (by rewrite Hlog, effects_at_cache_test).
    split_and!; [done| |exists n; split; [lia|done]].
    apply cache_writes_none. rewrite Hall.
    assert (n = 0 ∨ n = 1 ∨ n = 2 ∨ n = 3)%nat as [->|[->|[->| ->]]] by lia;
      simpl; rewrite ?not_elem_of_cons; split_and?; done || apply not_elem_of_nil. }
  destruct (desired_ip args) as [ip0|] eqn:Hdesired; [|right; right; eauto].
  destruct (cache_is_current (cache_file w) (cache_key args) ip0) eqn:Hcurrent.
  - left. exists ip0. rewrite Hrun. cbn [fst snd]. by rewrite effects_at_cache_test.
  - destruct Hrun as [(domainId & resourceId & Hrun & obj & Hreply & Hok)|Hrun];
      [|right; right; eauto].
    right; left. exists ip0. rewrite Hrun. cbn [fst snd]. rewrite effects_at_cache_test.
    split_and!; try done.
    exists [("api_action", "domain.resource.update"); ("DomainID", domainId);
            ("ResourceID", resourceId); ("target", ip0); ("api_key", apiKey args)], obj.
    split_and!; [|done..].
    simpl. rewrite elem_of_app. right. rewrite !elem_of_cons. eauto.
Qed.


(** C3.  The key used by the skip test and by the cache write is the
    resource argument, a dot, and the domain argument, as the user gave them:
    the run skips exactly when the cache holds the desired address under that
    key; every cache content the run writes is the loaded cache with the
    section under that key replaced by the single option [ip]; and a run that
    leaves with status 0 without skipping has written exactly that content.
    The IDs that resolution returned appear in neither. *)
Theorem cache_key_is_resource_dot_domain args :
  let key := resourceID args +:+ "." +:+ domainID args in
  (∀ ip0, desired_ip args = Some ip0 →
          (skipped (run args) ↔ stored_ip (cache_file w) key = Some ip0)) ∧
  (∀ content, content ∈ cache_writes (events (run args).2) →
              ∃ ip0, desired_ip args = Some ip0 ∧
                     content = <[key := {["ip" := ip0]}]> (cache_file w)) ∧
  (∀ ip0, desired_ip args = Some ip0 →
          (run args).1 = Exit 0 → ¬ skipped (run args) →
          cache_writes (events (run args).2) =
            [<[key := {["ip" := ip0]}]> (cache_file w)]).
Proof.
  intros key. split; [intros ip0; apply run_skipped_iff|].
  assert (cache_writes (ip_events args) = []) as Hip
    by (unfold ip_events; by destruct (ip args)).
  pose proof (run_cases args) as Hrun.
  assert (∀ least, failed_run least (at_cache_test args) (run args) →
                   cache_writes (events (run args).2) = [] ∧ (run args).1 ≠ Exit 0)
    as Hfailed.
  { intros least (log & n & Hlog & Hfail & Hn & Heffects).
    split; [|by apply failed_not_success].
    rewrite Hlog. simpl. rewrite cache_writes_app, Hip. apply cache_writes_none.
    rewrite Heffects.
    assert (n = 0 ∨ n = 1 ∨ n = 2 ∨ n = 3)%nat as [->|[->|[->| ->]]] by lia;
      simpl; rewrite ?not_elem_of_cons; split_and?; done || apply not_elem_of_nil. }
  assert (∀ ip0, completed_update (at_cache_test args) args ip0 (run args) →
                 cache_writes (events (run args).2) =
                   [<[key := {["ip" := ip0]}]> (cache_file w)]) as Hcompleted.
  { intros ip0 (d & r & Heq & _). rewrite Heq. simpl.
    by rewrite cache_writes_app, Hip. }
  split.
  - intros content Hwritten.
    destruct (desired_ip args) as [ip0|].
    2:{ destruct (Hfailed _ Hrun) as [Hnone _]. rewrite Hnone in Hwritten.
        by inversion Hwritten. }
    destruct (cache_is_current _ _ ip0).
    + rewrite Hrun in Hwritten. simpl in Hwritten.
      rewrite cache_writes_app, Hip in Hwritten. by inversion Hwritten.
    + destruct Hrun as [Hrun|Hrun].
      * rewrite (Hcompleted _ Hrun) in Hwritten.
        apply list_elem_of_singleton in Hwritten as ->. by exists ip0.
      * destruct (Hfailed _ Hrun) as [Hnone _]. rewrite Hnone in Hwritten.
        by inversion Hwritten.
  - intros ip0 Hdesired Hexit Hnot. rewrite Hdesired in Hrun.
    destruct (cache_is_current _ _ ip0) eqn:Hcurrent.
    + destruct Hnot. apply (run_skipped_iff _ _ Hdesired).
      by apply cache_is_current_stored.
    + destruct Hrun as [Hrun|Hrun]; [by apply Hcompleted|].
      by destruct (Hfailed _ Hrun) as [_ Hne].
Qed.

(** C9.  A run whose [-ip] flag carries a string that the address parser
    rejects still leaves with status 0 when the cache holds that very string
    under the cache key: it prints the three lines of the skip path and
    nothing else, so no invalid-address report is made; [_validateIP] is not
    reached on this path. *)
Theorem malformed_flag_ip_skips_unvalidated args bad :
  ip args = Some bad →
  inet_aton bad = false →
  stored_ip (cache_file w) (cache_key args) = Some bad →
  run args = (Exit 0, {| _LINODE_API_KEY := apiKey args; events := skip_prints args bad |}).
Proof.
  intros Hip Hbad Hstored.
  assert (desired_ip args = Some bad) as Hdesired by (unfold desired_ip; by rewrite Hip).
  pose proof (run_cases args) as Hrun. rewrite Hdesired in Hrun.
  apply cache_is_current_stored in Hstored. rewrite Hstored in Hrun.
  rewrite Hrun. unfold log_to, at_cache_test, ip_events. by rewrite Hip.
Qed.
(** ** Further properties of the API client *)

Lemma dict_get_set_eq {V} k (v : V) items : dict_get k (dict_set k v items) = Some v.
Proof.
  induction items as [|[k' v'] items IH]; simpl.
  - by rewrite String.eqb_refl.
  - destruct (String.eqb k' k) eqn:Hk; simpl; by rewrite Hk.
Qed.

Lemma dict_get_set_ne {V} k k' (v : V) items :
  k' ≠ k → dict_get k' (dict_set k v items) = dict_get k' items.
Proof.
  intros Hne. induction items as [|[k0 v0] items IH]; simpl.
  - destruct (String.eqb_spec k k'); [congruence|done].
  - destruct (String.eqb_spec k0 k) as [->|]; simpl.
    + destruct (String.eqb_spec k k'); [congruence|done].
    + by rewrite IH.
Qed.

Lemma dict_set_fresh {V} k (v : V) items :
  dict_get k items = None → dict_set k v items = items ++ [(k, v)].
Proof.
  induction items as [|[k' v'] items IH]; simpl; [done|].
  destruct (String.eqb k' k); [done|]. intros Hnone. by rewrite IH.
Qed.

Lemma only_prints_error_prints message ex : only_prints (error_prints message ex).
Proof. destruct ex; repeat constructor; by eexists. Qed.

Lemma linodeAPICall_ret apiParams st obj :
  (_linodeAPICall apiParams st).1 = Ret obj ↔
  linode_api w (request_of st apiParams) = ReplyJSON obj ∧ no_errors obj = true.
Proof.
  split.
  - destruct (linodeAPICall_cases apiParams st)
      as [(obj' & Hreply & Hok & ->)|(r & prints & Hr & _ & ->)]; simpl.
    + by intros [= <-].
    + intros ->. done.
  - intros [Hreply Hok]. by rewrite (linodeAPICall_returns _ _ _ Hreply Hok).
Qed.

Lemma linodeAPICall_log apiParams st :
  ∃ prints, (_linodeAPICall apiParams st).2 =
              log_to st (EvRequest (request_of st apiParams) :: prints) ∧
            only_prints prints ∧
            ((∃ obj, (_linodeAPICall apiParams st).1 = Ret obj) → prints = []).
Proof.
  unfold _linodeAPICall, request_of. unfold_script. simpl.
  set (request := dict_set "api_key" (_LINODE_API_KEY st) apiParams).
  assert (∀ r : Res Json,
            ∃ prints, (r, log_to st [EvRequest request]).2 =
                        log_to st (EvRequest request :: prints) ∧ only_prints prints ∧
                      ((∃ obj, (r, log_to st [EvRequest request]).1 = Ret obj) →
                       prints = []))
    as Hquiet by (intros r; exists []; split_and!; [done|constructor|done]).
  assert (∀ message ex,
            ∃ prints, (@Exit Json (-1),
                       log_to (log_to st [EvRequest request]) (error_prints message ex)).2 =
                        log_to st (EvRequest request :: prints) ∧ only_prints prints ∧
                      ((∃ obj, (@Exit Json (-1),
                                log_to (log_to st [EvRequest request])
                                       (error_prints message ex)).1 = Ret obj) →
                       prints = []))
    as Hloud.
  { intros message ex. exists (error_prints message ex).
    split_and!; [by log_norm|apply only_prints_error_prints|by intros [obj ?]]. }
  destruct (linode_api w request) as [cause|cause|obj].
  - rewrite handleError_eq. apply Hloud.
  - rewrite handleError_eq. apply Hloud.
  - destruct (py_getitem obj "ERRORARRAY") as [api_errors| |]; [|apply Hquiet..].
    destruct (py_len api_errors) as [n| |]; [|apply Hquiet..].
    destruct (0 <? n)%nat; [|apply Hquiet].
    destruct (py_iter api_errors) as [errors| |]; [|apply Hquiet..].
    destruct (error_lines errors _) as [errorMessage| |]; [|apply Hquiet..].
    rewrite handleError_eq. apply Hloud.
Qed.

(** X1.  [_linodeAPICall] returns a value exactly when the reply parses and
    its [ERRORARRAY] is there with length zero, and the value is the parsed
    reply itself, unchanged. *)
Theorem linodeAPICall_returns_iff apiParams st obj :
  (_linodeAPICall apiParams st).1 = Ret obj ↔
  linode_api w (request_of st apiParams) = ReplyJSON obj ∧ no_errors obj = true.
Proof. apply linodeAPICall_ret. Qed.

(** X2.  Whatever the reply, one call of [_linodeAPICall] attempts exactly
    one request and otherwise only prints: there is no retry.  The request
    holds the credential of the global under [api_key], every other
    parameter as the caller gave it, and, when the caller gave no [api_key],
    the caller's parameters in their order with [api_key] added at the end. *)
Theorem linodeAPICall_one_request apiParams st :
  (∃ prints, (_linodeAPICall apiParams st).2 =
               log_to st (EvRequest (request_of st apiParams) :: prints) ∧
             only_prints prints) ∧
  dict_get "api_key" (request_of st apiParams) = Some (_LINODE_API_KEY st) ∧
  (∀ k, k ≠ "api_key" → dict_get k (request_of st apiParams) = dict_get k apiParams) ∧
  (dict_get "api_key" apiParams = None →
   request_of st apiParams = apiParams ++ [("api_key", _LINODE_API_KEY st)]).
Proof.
  split_and!.
  - destruct (linodeAPICall_log apiParams st) as (prints & Hlog & Hprints & _). eauto.
  - apply dict_get_set_eq.
  - intros k Hk. by apply dict_get_set_ne.
  - apply dict_set_fresh.
Qed.

(** X3.  A request that cannot be made or read, and a body that is no JSON,
    are both handled: [_linodeAPICall] prints its own message for the case,
    then the cause, and leaves through [sys.exit(-1)] after the one request. *)
Theorem linodeAPICall_transport_and_parse_failures apiParams st :
  (∀ cause, linode_api w (request_of st apiParams) = ReplyFailed cause →
            _linodeAPICall apiParams st =
              (Exit (-1),
               log_to st (EvRequest (request_of st apiParams) ::
                          error_prints "An error occurred while connecting to the Linode API."
                                       (Some cause)))) ∧
  (∀ cause, linode_api w (request_of st apiParams) = ReplyNotJSON cause →
            _linodeAPICall apiParams st =
              (Exit (-1),
               log_to st (EvRequest (request_of st apiParams) ::
                          error_prints "Couldn't parse JSON response from Linode API."
                                       (Some cause)))).
Proof.
  split; intros cause Hreply; unfold _linodeAPICall, request_of in *; unfold_script; simpl;
    rewrite Hreply, handleError_eq; by log_norm.
Qed.
(** ** Further properties of the IP lookup *)






Lemma run_lookup_fails args :
  ip args = None →
  desired_ip args = None →
  (run args).1 = Exit (-1) ∧
  ∃ prints, events (run args).2 = EvFetch _IP_FINDER_URL :: prints ∧ only_prints prints.
Proof.
  intros Hip Hnone. unfold desired_ip in Hnone. rewrite Hip in Hnone.
  unfold run, _main. unfold_script. rewrite Hip, getExternalIP_eq. simpl.
  destruct (ip_finder w) as [cause|text]; simpl.
  - split; [done|]. eexists. split; [reflexivity|apply only_prints_error_prints].
  - destruct (inet_aton (strip text)); [done|]. simpl.
    split; [done|]. eexists. split; [reflexivity|apply only_prints_error_prints].
Qed.


(** ** Further properties of the resolvers *)

Lemma find_resource_none candidate resources :
  Forall (resource_passed_over candidate) resources →
  find_resource candidate resources = Ret None.
Proof.
  induction 1 as [|resource rest Hpass _ IH]; [done|]. by rewrite find_resource_passes.
Qed.

(** X6.  When the provider answers [domain.resource.list] without errors
    and every entry of the list is passed over, [_normalizeResourceID]
    leaves through [_handleError] after the one request; the message
    contains both the candidate and the domain ID it was called with. *)
Theorem normalizeResourceID_unknown_resource domainID candidate st obj resources :
  linode_api w (request_of st [("api_action", "domain.resource.list");
                               ("DomainID", domainID)]) = ReplyJSON obj →
  no_errors obj = true →
  json_field "DATA" obj = Some (JList resources) →
  Forall (resource_passed_over candidate) resources →
  _normalizeResourceID domainID candidate st =
    (Exit (-1),
     log_to st (EvRequest (request_of st [("api_action", "domain.resource.list");
                                          ("DomainID", domainID)]) ::
                error_prints (unknown_resource_message domainID candidate) None)) ∧
  contains candidate (unknown_resource_message domainID candidate) = true ∧
  contains domainID (unknown_resource_message domainID candidate) = true.
Proof.
  intros Hreply Hok Hdata Hnone. split_and!.
  - rewrite (normalizeResourceID_scan _ _ _ _ _ Hreply Hok Hdata),
      (find_resource_none _ _ Hnone).
    cbv zeta. by rewrite log_to_log_to.
  - unfold unknown_resource_message. rewrite <- string_app_assoc. apply contains_app.
  - apply contains_spec.
    exists ("The supplied Resource ID/name " +:+ dq +:+ candidate +:+ dq +:+
            " is invalid or is not associated with Domain ID " +:+ dq), (dq +:+ ".").
    unfold unknown_resource_message. by rewrite !string_app_assoc.
Qed.
Lemma find_domain_skips candidate before rest :
  Forall (domain_passed_over candidate) before →
  find_domain candidate (before ++ rest) = find_domain candidate rest.
Proof.
  induction 1 as [|domain before Hpass _ IH]; [done|].
  simpl app. by rewrite find_domain_passes.
Qed.

Lemma find_resource_skips candidate before rest :
  Forall (resource_passed_over candidate) before →
  find_resource candidate (before ++ rest) = find_resource candidate rest.
Proof.
  induction 1 as [|resource before Hpass _ IH]; [done|].
  simpl app. by rewrite find_resource_passes.
Qed.

(** X7.  The scan of [_normalizeDomainID] reads [DOMAINID] of every entry it
    reaches, and [DOMAIN] only when the ID is not the candidate.  So an entry
    without [DOMAINID], or one with another ID and without [DOMAIN], ends the
    resolver with the uncaught exception of the lookup, whatever comes after
    it in the list, a matching entry included. *)
Theorem normalizeDomainID_malformed_entry candidate st obj before bad after :
  linode_api w (request_of st [("api_action", "domain.list")]) = ReplyJSON obj →
  no_errors obj = true →
  json_field "DATA" obj = Some (JList (before ++ bad :: after)) →
  Forall (domain_passed_over candidate) before →
  let st' := log_to st [EvRequest (request_of st [("api_action", "domain.list")])] in
  (json_field "DOMAINID" bad = None →
   _normalizeDomainID candidate st = (Raise (lookup_error bad "DOMAINID"), st')) ∧
  (∀ id, json_field "DOMAINID" bad = Some id →
         py_str repr_str id ≠ candidate →
         json_field "DOMAIN" bad = None →
         _normalizeDomainID candidate st = (Raise (KeyError "DOMAIN"), st')).
Proof.
  intros Hreply Hok Hdata Hbefore st'.
  rewrite (normalizeDomainID_scan _ _ _ _ Hreply Hok Hdata), (find_domain_skips _ _ _ Hbefore).
  cbv zeta. simpl find_domain. unfold_script. split.
  - intros Hmissing. by rewrite (py_getitem_missing _ _ Hmissing).
  - intros id Hid Hne Hmissing. apply py_getitem_field in Hid. rewrite Hid.
    apply String.eqb_neq in Hne. rewrite Hne, (py_getitem_missing _ _ Hmissing).
    destruct bad; try done.
Qed.

(** X8.  The scan of [_normalizeResourceID] reads [TYPE] and [RESOURCEID]
    of every entry it reaches, before it looks at the type, and [NAME] only
    of an A record whose ID is not the candidate.  So an entry without
    [TYPE], with a [TYPE] that is no string, or without [RESOURCEID] (be it
    an A record or not) ends the resolver with an uncaught exception, and so
    does an A record with another ID and without [NAME], whatever comes after
    it in the list. *)
Theorem normalizeResourceID_malformed_entry domainID candidate st obj before bad after :
  linode_api w (request_of st [("api_action", "domain.resource.list");
                               ("DomainID", domainID)]) = ReplyJSON obj →
  no_errors obj = true →
  json_field "DATA" obj = Some (JList (before ++ bad :: after)) →
  Forall (resource_passed_over candidate) before →
  let st' := log_to st [EvRequest (request_of st [("api_action", "domain.resource.list");
                                                  ("DomainID", domainID)])] in
  (json_field "TYPE" bad = None →
   _normalizeResourceID domainID candidate st = (Raise (lookup_error bad "TYPE"), st')) ∧
  (∀ type, json_field "TYPE" bad = Some type →
           (∀ t, type ≠ JStr t) →
           _normalizeResourceID domainID candidate st = (Raise AttributeError, st')) ∧
  (∀ t, json_field "TYPE" bad = Some (JStr t) →
        json_field "RESOURCEID" bad = None →
        _normalizeResourceID domainID candidate st = (Raise (KeyError "RESOURCEID"), st')) ∧
  (∀ t id, json_field "TYPE" bad = Some (JStr t) → lower t = "a" →
           json_field "RESOURCEID" bad = Some id →
           py_str repr_str id ≠ candidate →
           json_field "NAME" bad = None →
           _normalizeResourceID domainID candidate st = (Raise (KeyError "NAME"), st')).
Proof.
  intros Hreply Hok Hdata Hbefore st'.
  rewrite (normalizeResourceID_scan _ _ _ _ _ Hreply Hok Hdata),
    (find_resource_skips _ _ _ Hbefore).
  cbv zeta. simpl find_resource. unfold_script. split_and!.
  - intros Hmissing. by rewrite (py_getitem_missing _ _ Hmissing).
  - intros type Htype Hnostr. apply py_getitem_field in Htype. rewrite Htype.
    destruct type; try done. by destruct (Hnostr s).
  - intros t Htype Hmissing. apply py_getitem_field in Htype. rewrite Htype. simpl.
    rewrite (py_getitem_missing _ _ Hmissing). by destruct bad.
  - intros t id Htype Ha Hid Hne Hmissing. apply py_getitem_field in Htype, Hid.
    rewrite Htype. simpl. rewrite Hid, Ha. simpl.
    apply String.eqb_neq in Hne. rewrite Hne, (py_getitem_missing _ _ Hmissing).
    by destruct bad.
Qed.

(** ** Further properties of the update call *)

(** X9.  With a target that the address parser accepts, [_updateDynDNS]
    makes exactly one request, which holds the action
    [domain.resource.update], the domain ID, the resource ID and the target
    it was given, and the credential last; it returns exactly when the reply
    parses without errors, and hands nothing of the reply on. *)
Theorem updateDynDNS_valid_target domainID resourceID target st :
  inet_aton target = true →
  let request := request_of st (update_params domainID resourceID target) in
  request = update_params domainID resourceID target ++ [("api_key", _LINODE_API_KEY st)] ∧
  ((_updateDynDNS domainID resourceID target st).1 = Ret () ↔
   ∃ obj, linode_api w request = ReplyJSON obj ∧ no_errors obj = true) ∧
  ∃ prints, (_updateDynDNS domainID resourceID target st).2 =
              log_to st (EvRequest request :: prints) ∧ only_prints prints.
Proof.
  intros Hvalid request. split; [done|].
  unfold _updateDynDNS. unfold_script. rewrite validateIP_eq, Hvalid.
  fold (update_params domainID resourceID target).
  destruct (linodeAPICall_log (update_params domainID resourceID target) st)
    as (prints & Hlog & Hprints & _).
  pose proof (linodeAPICall_ret (update_params domainID resourceID target) st) as Hret.
  destruct (_linodeAPICall (update_params domainID resourceID target) st) as [[obj| |] st1];
    simpl in *.
  - split; [|eauto]. split; [intros _; exists obj; by apply Hret|done].
  - split; [|eauto]. split; [done|]. intros (obj & Hobj). by apply Hret in Hobj.
  - split; [|eauto]. split; [done|]. intros (obj & Hobj). by apply Hret in Hobj.
Qed.
Lemma log_to_log_to_nil st : st = log_to st [].
Proof. destruct st. unfold log_to. simpl. by rewrite app_nil_r. Qed.

(** ** What every function keeps to *)

Lemma tidy_nil {A} fetching key (r : Res A) :
  (∀ status, r ≠ Exit status) → tidy fetching key r [].
Proof.
  intros Hr. split_and!.
  - by intros params ?%elem_of_nil.
  - intros status ->. by destruct (Hr status).
  - by intros _ url ?%elem_of_nil.
Qed.

Lemma tidy_ret {A} fetching (a : A) st : tidy_at fetching (mret a) st.
Proof. exists []. split; [apply log_to_log_to_nil|by apply tidy_nil]. Qed.

Lemma tidy_lift {A} fetching (r : Res A) st :
  (∀ status, r ≠ Exit status) → tidy_at fetching (lift r) st.
Proof. intros Hr. exists []. split; [apply log_to_log_to_nil|by apply tidy_nil]. Qed.

Lemma tidy_print fetching line st : tidy_at fetching (print line) st.
Proof.
  exists [EvPrint line]. split; [done|]. split_and!.
  - by intros params [=]%list_elem_of_singleton.
  - done.
  - by intros _ url [=]%list_elem_of_singleton.
Qed.

Lemma tidy_exit {A} fetching status st :
  tidy_at fetching (print "Terminating.";; @sys_exit A status) st.
Proof.
  exists [EvPrint "Terminating."]. split; [done|]. split_and!.
  - by intros params [=]%list_elem_of_singleton.
  - intros _ _. by exists [].
  - by intros _ url [=]%list_elem_of_singleton.
Qed.

Lemma tidy_request fetching params st :
  dict_get "api_key" params = Some (_LINODE_API_KEY st) →
  tidy_at fetching (emit (EvRequest params)) st.
Proof.
  intros Hkey. exists [EvRequest params]. split; [done|]. split_and!.
  - by intros params' [= ->]%list_elem_of_singleton.
  - done.
  - by intros _ url [=]%list_elem_of_singleton.
Qed.

Lemma tidy_cache_write fetching filename content st :
  tidy_at fetching (emit (EvCacheWrite filename content)) st.
Proof.
  exists [EvCacheWrite filename content]. split; [done|]. split_and!.
  - by intros params [=]%list_elem_of_singleton.
  - done.
  - by intros _ url [=]%list_elem_of_singleton.
Qed.

Lemma tidy_fetch url st : tidy_at true (emit (EvFetch url)) st.
Proof.
  exists [EvFetch url]. split; [done|]. split_and!; [|done..].
  by intros params [=]%list_elem_of_singleton.
Qed.

(** Sequencing keeps it. *)
Lemma tidy_bind {A B} fetching (m : M A) (k : A → M B) st :
  tidy_at fetching m st →
  (∀ a st', _LINODE_API_KEY st' = _LINODE_API_KEY st → tidy_at fetching (k a) st') →
  tidy_at fetching (m ≫= k) st.
Proof.
  intros (log1 & Hst1 & Hreq1 & Hexit1 & Hfetch1) Hk.
  unfold tidy_at, mbind, M_mbind, M_bind.
  destruct (m st) as [[a|status|e] st1] eqn:Hm; simpl in *; subst st1.
  - destruct (Hk a (log_to st log1) eq_refl) as (log2 & Hst2 & Hreq2 & Hexit2 & Hfetch2).
    exists (log1 ++ log2). rewrite Hst2, log_to_log_to. split; [done|]. split_and!.
    + intros params [?|?]%elem_of_app; auto.
    + intros status Hstatus. destruct (Hexit2 status Hstatus) as [before ->].
      exists (log1 ++ before). by rewrite app_assoc.
    + intros Hf url [?|?]%elem_of_app; [by apply (Hfetch1 Hf url)|by apply (Hfetch2 Hf url)].
  - exists log1. split; [done|]. split_and!; [done| |done].
    intros status' [= <-]. by apply (Hexit1 status).
  - exists log1. split; [done|]. split_and!; done.
Qed.

Lemma tidy_weaken {A} (m : M A) st : tidy_at false m st → tidy_at true m st.
Proof.
  intros (log & Hst & Hreq & Hexit & _). exists log. split; [done|]. split_and!; done.
Qed.

Lemma py_len_no_exit obj status : py_len obj ≠ Exit status.
Proof. by destruct obj. Qed.

Lemma py_iter_no_exit obj status : py_iter obj ≠ Exit status.
Proof. by destruct obj. Qed.

Lemma find_domain_no_exit candidate domains status :
  find_domain candidate domains ≠ Exit status.
Proof.
  induction domains as [|domain rest IH]; [done|].
  destruct (find_domain_head candidate domain rest) as [Hpass|[[d Hsel]|[e He]]].
  - by rewrite find_domain_passes.
  - by rewrite (find_domain_takes _ _ rest _ Hsel).
  - by rewrite He.
Qed.

Lemma find_resource_no_exit candidate resources status :
  find_resource candidate resources ≠ Exit status.
Proof.
  induction resources as [|resource rest IH]; [done|].
  destruct (find_resource_head candidate resource rest) as [Hpass|[[d Hsel]|[e He]]].
  - by rewrite find_resource_passes.
  - by rewrite (find_resource_takes _ _ rest _ Hsel).
  - by rewrite He.
Qed.

Ltac tidy_steps :=
  repeat first
    [ apply tidy_exit
    | apply tidy_ret
    | apply tidy_print
    | apply tidy_cache_write
    | apply tidy_lift; intros ?;
      first [ apply py_getitem_no_exit | apply py_len_no_exit | apply py_iter_no_exit
            | apply error_lines_no_exit | apply find_domain_no_exit
            | apply find_resource_no_exit | discriminate ]
    | apply tidy_bind; [|intros ? ? ?] ].

Lemma tidy_handleError {A} fetching message ex st :
  tidy_at fetching (@_handleError A message ex) st.
Proof. unfold _handleError. destruct ex; tidy_steps. Qed.

Lemma tidy_validateIP fetching ip st : tidy_at fetching (_validateIP ip) st.
Proof.
  unfold _validateIP. destruct (inet_aton ip); [tidy_steps|apply tidy_handleError].
Qed.

Lemma tidy_getExternalIP st : tidy_at true _getExternalIP st.
Proof.
  unfold _getExternalIP. apply tidy_bind; [apply tidy_fetch|intros _ st1 _].
  apply tidy_bind; [|intros ip st2 _].
  - destruct (ip_finder w); [apply tidy_handleError|tidy_steps].
  - apply tidy_bind; [apply tidy_validateIP|intros; tidy_steps].
Qed.

Lemma tidy_linodeAPICall fetching apiParams st :
  tidy_at fetching (_linodeAPICall apiParams) st.
Proof.
  unfold _linodeAPICall.
  change (tidy_at fetching
            (emit (EvRequest (dict_set "api_key" (_LINODE_API_KEY st) apiParams));;
             response_obj ← match linode_api w (dict_set "api_key" (_LINODE_API_KEY st)
                                                         apiParams) with
                            | ReplyFailed cause =>
                                _handleError
                                  "An error occurred while connecting to the Linode API."
                                  (Some cause)
                            | ReplyNotJSON cause =>
                                _handleError "Couldn't parse JSON response from Linode API."
                                             (Some cause)
                            | ReplyJSON obj => mret obj
                            end;
             api_errors ← lift (py_getitem response_obj "ERRORARRAY");
             n ← lift (py_len api_errors);
             (if (0 <? n)%nat then
                errors ← lift (py_iter api_errors);
                errorMessage ← lift (error_lines errors
                                 "The Linode API call failed with the following error(s).");
                _handleError errorMessage None
              else mret ());;
             mret response_obj) st).
  apply tidy_bind; [apply tidy_request, dict_get_set_eq|intros _ st1 _].
  apply tidy_bind; [|intros response_obj st2 _].
  { destruct (linode_api w _); [apply tidy_handleError..|tidy_steps]. }
  tidy_steps. destruct (0 <? _)%nat; tidy_steps.
Qed.

Lemma tidy_normalizeDomainID fetching candidate st :
  tidy_at fetching (_normalizeDomainID candidate) st.
Proof.
  unfold _normalizeDomainID.
  apply tidy_bind; [apply tidy_linodeAPICall|intros apiResult st1 _].
  tidy_steps.
  match goal with
  | |- tidy_at _ (match ?found with _ => _ end) _ => destruct found
  end; [tidy_steps|apply tidy_handleError].
Qed.

Lemma tidy_normalizeResourceID fetching domainID candidate st :
  tidy_at fetching (_normalizeResourceID domainID candidate) st.
Proof.
  unfold _normalizeResourceID.
  apply tidy_bind; [apply tidy_linodeAPICall|intros apiResult st1 _].
  tidy_steps.
  match goal with
  | |- tidy_at _ (match ?found with _ => _ end) _ => destruct found
  end; [tidy_steps|apply tidy_handleError].
Qed.

Lemma tidy_updateDynDNS fetching domainID resourceID target st :
  tidy_at fetching (_updateDynDNS domainID resourceID target) st.
Proof.
  unfold _updateDynDNS. cbv zeta.
  apply tidy_bind; [apply tidy_validateIP|intros _ st1 _].
  apply tidy_bind; [apply tidy_linodeAPICall|intros; tidy_steps].
Qed.

Lemma tidy_write_cache fetching cache st : tidy_at fetching (write_cache cache) st.
Proof. unfold write_cache. destruct (cache_writable w); tidy_steps. Qed.

(** [_main] after it has set the global: tidy from there on. *)
Lemma tidy_main args st :
  ∃ log, (_main args st).2 =
           log_to {| _LINODE_API_KEY := apiKey args; events := events st |} log ∧
         tidy (match ip args with Some _ => false | None => true end)
              (apiKey args) (_main args st).1 log.
Proof.
  set (fetching := match ip args with Some _ => false | None => true end).
  set (start := {| _LINODE_API_KEY := apiKey args; events := events st |}).
  unfold _main. cbv zeta.
  match goal with
  | |- ∃ log, ((set_api_key _;; ?m) st).2 = _ ∧ _ =>
      change (tidy_at fetching m start)
  end.
  apply tidy_bind; [|intros ip0 st1 _].
  { subst fetching. destruct (ip args); [tidy_steps|apply tidy_getExternalIP]. }
  destruct (cache_is_current _ _ ip0); [tidy_steps|].
  apply tidy_bind; [apply tidy_normalizeDomainID|intros domainId st2 _].
  apply tidy_bind; [apply tidy_normalizeResourceID|intros resourceId st3 _].
  apply tidy_bind; [apply tidy_updateDynDNS|intros _ st4 _].
  apply tidy_bind; [apply tidy_write_cache|intros _ st5 _].
  tidy_steps.
Qed.
(** ** Further properties of the run *)

Lemma run_tidy args :
  tidy (match ip args with Some _ => false | None => true end)
       (apiKey args) (run args).1 (events (run args).2).
Proof.
  unfold run. destruct (tidy_main args {| _LINODE_API_KEY := EmptyString; events := [] |})
    as (log & -> & Htidy).
  exact Htidy.
Qed.

(** X10.  Every request a run makes to the provider carries, under
    [api_key], the API key of the command line. *)
Theorem run_requests_carry_credential args params :
  EvRequest params ∈ events (run args).2 →
  dict_get "api_key" params = Some (apiKey args).
Proof. destruct (run_tidy args) as (Hkeyed & _). apply Hkeyed. Qed.


Lemma only_prints_no_fetch prints url : only_prints prints → EvFetch url ∉ prints.
Proof.
  intros Hprints Hin. unfold only_prints in Hprints. rewrite Forall_forall in Hprints.
  by destruct (Hprints _ Hin) as [line ?].
Qed.

(** X12.  The IP finder is contacted only to replace a missing [-ip] flag:
    with the flag, no run ever fetches it; without the flag, the fetch is the
    first thing the run does and it happens once. *)
Theorem run_fetches_ip_only_without_flag args :
  (∀ flag, ip args = Some flag → ∀ url, EvFetch url ∉ events (run args).2) ∧
  (ip args = None →
   ∃ rest, events (run args).2 = EvFetch _IP_FINDER_URL :: rest ∧
           ∀ url, EvFetch url ∉ rest).
Proof.
  split.
  - intros flag Hip. pose proof (run_tidy args) as (_ & _ & Hquiet).
    rewrite Hip in Hquiet. by apply Hquiet.
  - intros Hip. destruct (desired_ip args) as [ip0|] eqn:Hdesired.
    + unfold desired_ip in Hdesired. rewrite Hip in Hdesired.
      destruct (ip_finder w) as [cause|text] eqn:Hfetch; [done|].
      destruct (inet_aton (strip text)) eqn:Hvalid; [|done]. simplify_eq.
      unfold run. rewrite (main_after_lookup args text _ Hip Hfetch Hvalid).
      destruct (tidy_main (with_ip args (strip text))
                  (log_to {| _LINODE_API_KEY := EmptyString; events := [] |}
                          [EvFetch _IP_FINDER_URL]))
        as (log & -> & _ & _ & Hquiet).
      exists log. split; [done|]. by apply Hquiet.
    + destruct (run_lookup_fails args Hip Hdesired) as (_ & prints & -> & Hprints).
      exists prints. split; [done|]. intros url. by apply only_prints_no_fetch.
Qed.

Lemma cache_writes_ip_events args : cache_writes (ip_events args) = [].
Proof. unfold ip_events. by destruct (ip args). Qed.

Lemma run_cache_writes args :
  cache_writes (events (run args).2) = [] ∨
  ∃ ip0, desired_ip args = Some ip0 ∧
         cache_writes (events (run args).2) = [cache_after args ip0].
Proof.
  pose proof (run_cases args) as Hrun.
  assert (∀ least, failed_run least (at_cache_test args) (run args) →
                   cache_writes (events (run args).2) = []) as Hfailed.
  { intros least (log & n & Hlog & _ & Hn & Heffects).
    rewrite Hlog. simpl. rewrite cache_writes_app, cache_writes_ip_events.
    apply cache_writes_none. rewrite Heffects.
    assert (n = 0 ∨ n = 1 ∨ n = 2 ∨ n = 3)%nat as [->|[->|[->| ->]]] by lia;
      simpl; rewrite ?not_elem_of_cons; split_and?; done || apply not_elem_of_nil. }
  destruct (desired_ip args) as [ip0|]; [|left; eauto].
  destruct (cache_is_current _ _ ip0).
  - left. rewrite Hrun. simpl. by rewrite cache_writes_app, cache_writes_ip_events.
  - destruct Hrun as [(d & r & -> & _)|Hrun]; [|left; eauto].
    right. exists ip0. split; [done|]. simpl.
    by rewrite cache_writes_app, cache_writes_ip_events.
Qed.

(** X13.  What a run writes to the cache file is the loaded cache changed
    at one place: the section under the cache key now holds the single
    option [ip] with the desired address (any other option it had is gone),
    and every other section is as it was loaded. *)
Theorem run_cache_write_touches_one_section args content :
  content ∈ cache_writes (events (run args).2) →
  ∃ ip0, desired_ip args = Some ip0 ∧
         content !! cache_key args = Some {["ip" := ip0]} ∧
         ∀ key, key ≠ cache_key args → content !! key = cache_file w !! key.
Proof.
  intros Hwritten.
  destruct (run_cache_writes args) as [Hnone|(ip0 & Hdesired & Hone)].
  - rewrite Hnone in Hwritten. by apply elem_of_nil in Hwritten.
  - rewrite Hone in Hwritten. apply list_elem_of_singleton in Hwritten as ->.
    exists ip0. split; [done|]. unfold cache_after. split.
    + apply lookup_insert_eq.
    + intros key Hne. by apply lookup_insert_ne.
Qed.
(** ** How the steps of an update compose *)

(** The outcome of a call depends on the state through the global only. *)
Lemma linodeAPICall_frame apiParams st st' :
  _LINODE_API_KEY st = _LINODE_API_KEY st' →
  (_linodeAPICall apiParams st).1 = (_linodeAPICall apiParams st').1.
Proof.
  intros Hkey. unfold _linodeAPICall. unfold_script. simpl. rewrite Hkey.
  destruct (linode_api w _) as [cause|cause|obj]; rewrite ?handleError_eq; [done..|].
  destruct (py_getitem obj "ERRORARRAY") as [api_errors| |]; [|done..].
  destruct (py_len api_errors) as [n| |]; [|done..].
  destruct (0 <? n)%nat; [|done].
  destruct (py_iter api_errors) as [errors| |]; [|done..].
  destruct (error_lines errors _) as [errorMessage| |]; rewrite ?handleError_eq; done.
Qed.

Lemma normalizeDomainID_frame candidate st st' :
  _LINODE_API_KEY st = _LINODE_API_KEY st' →
  (_normalizeDomainID candidate st).1 = (_normalizeDomainID candidate st').1.
Proof.
  intros Hkey. unfold _normalizeDomainID. unfold_script.
  pose proof (linodeAPICall_frame [("api_action", "domain.list")] st st' Hkey) as Hcall.
  destruct (_linodeAPICall _ st) as [[obj| |] st1],
           (_linodeAPICall _ st') as [[obj'| |] st1']; simpl in Hcall; simplify_eq; [|done..].
  destruct (py_getitem obj' "DATA") as [data| |]; [|done..].
  destruct (py_iter data) as [domains| |]; [|done..].
  destruct (find_domain candidate domains) as [[d|]| |]; rewrite ?handleError_eq; done.
Qed.







End Script.

(** ** Across runs *)


(** ** Worked examples on the sample worlds *)

(** Fresh cache, valid inputs: the three requests, the cache write under
    the names the user gave, status 0. *)
Example fresh_run :
  run dotted_quad sample_repr fresh_world sample_args =
    (Exit 0,
     {| _LINODE_API_KEY := "KEY123";
        events :=
          [EvRequest [("api_action", "domain.list"); ("api_key", "KEY123")];
           EvRequest [("api_action", "domain.resource.list"); ("DomainID", "100");
                      ("api_key", "KEY123")];
           EvRequest [("api_action", "domain.resource.update"); ("DomainID", "100");
                      ("ResourceID", "200"); ("target", "203.0.113.5");
                      ("api_key", "KEY123")];
           EvCacheWrite "linode_dyndns_cache.ini"
                        {["home.example.com" := {["ip" := "203.0.113.5"]}]}] ++
          update_prints sample_args "203.0.113.5" |}).
Proof. vm_compute. reflexivity. Qed.

(** Cache hit: no request at all. *)
Example cached_run :
  api_actions (events (run dotted_quad sample_repr cached_world sample_args).2) = [] ∧
  (run dotted_quad sample_repr cached_world sample_args).1 = Exit 0.
Proof. split; reflexivity. Qed.

(** A later entry whose name is an earlier entry's ID does not win. *)
Example earlier_id_beats_later_name :
  (_normalizeDomainID sample_repr precedence_world "100" sample_state).1 = Ret "100".
Proof. reflexivity. Qed.

(** A CNAME record and an A record share a name: the A record is returned. *)
Example cname_is_passed_over :
  (_normalizeResourceID sample_repr fresh_world "100" "home" sample_state).1 = Ret "200".
Proof. reflexivity. Qed.

(** On the update path the malformed flag address is rejected, after both
    list calls and before any update call. *)
Example malformed_flag_ip_rejected_on_update_path :
  (run dotted_quad sample_repr fresh_world malformed_ip_args).1 = Exit (-1) ∧
  api_actions (events (run dotted_quad sample_repr fresh_world malformed_ip_args).2) =
    ["domain.list"; "domain.resource.list"].
Proof. split; reflexivity. Qed.

(** A reply without [ERRORARRAY] ends the whole run with the uncaught
    [KeyError]. *)
Example keyless_reply_ends_the_run :
  run dotted_quad sample_repr keyless_world sample_args =
    (Raise (KeyError "ERRORARRAY"),
     {| _LINODE_API_KEY := "KEY123";
        events := [EvRequest [("api_action", "domain.list"); ("api_key", "KEY123")]] |}).
Proof. reflexivity. Qed.

(** ** The theorems at concrete inputs *)


Lemma cache_key_is_resource_dot_domain_witness :
  skipped (run dotted_quad sample_repr cached_world sample_args) ∧
  cache_writes (events (run dotted_quad sample_repr fresh_world numeric_args).2) =
    [<["200" +:+ "." +:+ "100" := {["ip" := "203.0.113.5"]}]> ∅].
Proof.
  split.
  - apply (proj1 (cache_key_is_resource_dot_domain dotted_quad sample_repr cached_world
                    sample_args) "203.0.113.5" eq_refl).
    reflexivity.
  - apply (proj2 (proj2 (cache_key_is_resource_dot_domain dotted_quad sample_repr
                           fresh_world numeric_args)) "203.0.113.5" eq_refl).
    + reflexivity.
    + intros [_ Heffects]. vm_compute in Heffects. discriminate.
Defined.

Lemma normalizeDomainID_first_match_witness :
  (_normalizeDomainID sample_repr precedence_world "100" sample_state).1 = Ret "100".
Proof.
  apply (normalizeDomainID_first_match sample_repr precedence_world "100" sample_state
           (list_response precedence_domains) precedence_domains "100").
  - reflexivity.
  - reflexivity.
  - reflexivity.
  - exists [], (JDict [("DOMAINID", JInt 100); ("DOMAIN", JStr "example.com")]),
      [JDict [("DOMAINID", JInt 101); ("DOMAIN", JStr "100")]].
    split; [reflexivity|]. split; [constructor|].
    exists (JInt 100). split; [reflexivity|]. split; [reflexivity|]. left. reflexivity.
Defined.

Lemma normalizeResourceID_first_A_match_witness :
  ∃ before resource after,
    sample_resources = before ++ resource :: after ∧
    Forall (resource_passed_over sample_repr "home") before ∧
    resource_selected sample_repr "home" resource "200".
Proof.
  apply (normalizeResourceID_first_A_match sample_repr fresh_world "100" "home" sample_state
           (list_response sample_resources) sample_resources "200");
    reflexivity.
Defined.

Lemma linodeAPICall_reports_all_errors_witness :
  _linodeAPICall sample_repr failing_world [("api_action", "domain.list")] sample_state =
    (Exit (-1),
     log_to sample_state
       [EvRequest [("api_action", "domain.list"); ("api_key", "KEY123")];
        EvPrint ("Error: The Linode API call failed with the following error(s)." +:+
                 nl_tab +:+ "Authentication failed (Error Code: 4)" +:+
                 nl_tab +:+ "Object not found (Error Code: 5)");
        EvPrint "Terminating."]).
Proof.
  apply (linodeAPICall_reports_all_errors sample_repr failing_world
           [("api_action", "domain.list")] sample_state (error_response two_errors)
           two_errors
           [{| errorcode := 4; errormessage := "Authentication failed" |};
            {| errorcode := 5; errormessage := "Object not found" |}]).
  - reflexivity.
  - reflexivity.
  - discriminate.
  - repeat constructor.
Defined.

Lemma updateDynDNS_validates_before_calling_witness :
  dotted_quad "not-an-address" = false ∧
  api_actions (events (_updateDynDNS dotted_quad sample_repr fresh_world
                         "100" "200" "not-an-address" sample_state).2) = [].
Proof.
  split; [reflexivity|].
  apply (updateDynDNS_validates_before_calling dotted_quad sample_repr fresh_world
           "100" "200" "not-an-address" sample_state eq_refl).
Defined.

Lemma normalizeDomainID_unknown_domain_witness :
  _normalizeDomainID sample_repr fresh_world "nope.com" sample_state =
    (Exit (-1),
     log_to sample_state
       (EvRequest [("api_action", "domain.list"); ("api_key", "KEY123")] ::
        error_prints (unknown_domain_message "nope.com") None)) ∧
  contains "nope.com" (unknown_domain_message "nope.com") = true.
Proof.
  apply (normalizeDomainID_unknown_domain sample_repr fresh_world "nope.com" sample_state
           (list_response sample_domains) sample_domains).
  - reflexivity.
  - reflexivity.
  - reflexivity.
  - constructor; [|constructor].
    exists (JInt 100), (JStr "example.com").
    split; [reflexivity|]. split; [reflexivity|]. split; discriminate.
Defined.

Lemma malformed_flag_ip_skips_unvalidated_witness :
  dotted_quad "not-an-address" = false ∧
  run dotted_quad sample_repr stale_world malformed_ip_args =
    (Exit 0,
     {| _LINODE_API_KEY := "KEY123";
        events := skip_prints malformed_ip_args "not-an-address" |}).
Proof.
  split; [reflexivity|].
  apply (malformed_flag_ip_skips_unvalidated dotted_quad sample_repr stale_world
           malformed_ip_args "not-an-address"); reflexivity.
Defined.

Lemma missing_response_keys_raise_KeyError_witness :
  _linodeAPICall sample_repr keyless_world [("api_action", "domain.list")] sample_state =
    (Raise (KeyError "ERRORARRAY"),
     log_to sample_state [EvRequest [("api_action", "domain.list"); ("api_key", "KEY123")]]) ∧
  _normalizeDomainID sample_repr dataless_world "example.com" sample_state =
    (Raise (KeyError "DATA"),
     log_to sample_state [EvRequest [("api_action", "domain.list"); ("api_key", "KEY123")]]) ∧
  _normalizeResourceID sample_repr dataless_world "100" "home" sample_state =
    (Raise (KeyError "DATA"),
     log_to sample_state [EvRequest [("api_action", "domain.resource.list");
                                     ("DomainID", "100"); ("api_key", "KEY123")]]).
Proof.
  split; [|split].
  - apply (proj1 (missing_response_keys_raise_KeyError sample_repr keyless_world
                    [("api_action", "domain.list")] sample_state
                    (JDict [("DATA", JList sample_domains)]) eq_refl)).
    reflexivity.
  - apply (proj1 (proj2 (missing_response_keys_raise_KeyError sample_repr dataless_world
                           [("api_action", "domain.list")] sample_state
                           (JDict [("ERRORARRAY", JList [])]) eq_refl) eq_refl eq_refl)).
    reflexivity.
  - apply (proj2 (proj2 (missing_response_keys_raise_KeyError sample_repr dataless_world
                           [("api_action", "domain.resource.list"); ("DomainID", "100")]
                           sample_state (JDict [("ERRORARRAY", JList [])]) eq_refl)
                    eq_refl eq_refl) "100" "home").
    reflexivity.
Defined.

(** ** Where the specification says more than the code does *)

(** C1 as worded fails on a run that stops at an unknown domain: that run
    makes the [domain.list] call and nothing more, so it neither skipped on a
    cache hit nor went through the three calls and the cache write. *)
Lemma unknown_domain_run_neither_skips_nor_updates :
  (run dotted_quad sample_repr fresh_world unknown_domain_args).1 = Exit (-1) ∧
  effects (events (run dotted_quad sample_repr fresh_world unknown_domain_args).2) =
    [Calls (Some "domain.list")] ∧
  ¬ skips_or_updates dotted_quad fresh_world unknown_domain_args
      (run dotted_quad sample_repr fresh_world unknown_domain_args).
Proof.
  split; [reflexivity|]. split; [reflexivity|].
  intros [(ip0 & _ & _ & Heffects)|Heffects]; vm_compute in Heffects; discriminate.
Qed.

(** C8 as worded fails with the credential "KEY123" and the candidate
    "nope.com": no entry of the list matches, the report names the
    candidate, and the credential is nowhere in it. *)
Lemma unknown_domain_report_omits_credential :
  linode_api fresh_world (request_of sample_state [("api_action", "domain.list")]) =
    ReplyJSON (list_response sample_domains) ∧
  Forall (domain_passed_over sample_repr "nope.com") sample_domains ∧
  ¬ names_candidate_and_credential "nope.com" sample_state
      (_normalizeDomainID sample_repr fresh_world "nope.com" sample_state).
Proof.
  split; [reflexivity|]. split.
  { constructor; [|constructor].
    exists (JInt 100), (JStr "example.com").
    split; [reflexivity|]. split; [reflexivity|]. split; discriminate. }
  intros (message & Hreport & _ & Hkey).
  vm_compute in Hreport. injection Hreport as <-.
  vm_compute in Hkey. discriminate.
Qed.

(** ** The further properties at concrete inputs *)

Lemma linodeAPICall_returns_iff_witness :
  (_linodeAPICall sample_repr fresh_world [("api_action", "domain.list")] sample_state).1 =
    Ret (list_response sample_domains).
Proof.
  apply (linodeAPICall_returns_iff sample_repr fresh_world [("api_action", "domain.list")]
           sample_state (list_response sample_domains)).
  split; reflexivity.
Defined.

Lemma linodeAPICall_one_request_witness :
  request_of sample_state [("api_action", "domain.resource.list"); ("DomainID", "100")] =
    [("api_action", "domain.resource.list"); ("DomainID", "100"); ("api_key", "KEY123")].
Proof.
  apply (proj2 (proj2 (proj2 (linodeAPICall_one_request sample_repr fresh_world
                                [("api_action", "domain.resource.list"); ("DomainID", "100")]
                                sample_state)))).
  reflexivity.
Defined.

Lemma linodeAPICall_transport_and_parse_failures_witness :
  _linodeAPICall sample_repr unreachable_world [("api_action", "domain.list")] sample_state =
    (Exit (-1),
     log_to sample_state
       [EvRequest [("api_action", "domain.list"); ("api_key", "KEY123")];
        EvPrint "Error: An error occurred while connecting to the Linode API.";
        EvPrint "Root cause:";
        EvPrint (String "009" "timed out");
        EvPrint "Terminating."]) ∧
  _linodeAPICall sample_repr garbled_world [("api_action", "domain.list")] sample_state =
    (Exit (-1),
     log_to sample_state
       [EvRequest [("api_action", "domain.list"); ("api_key", "KEY123")];
        EvPrint "Error: Couldn't parse JSON response from Linode API.";
        EvPrint "Root cause:";
        EvPrint (String "009" "Expecting value: line 1 column 1 (char 0)");
        EvPrint "Terminating."]).
Proof.
  split.
  - apply (proj1 (linodeAPICall_transport_and_parse_failures sample_repr unreachable_world
                    [("api_action", "domain.list")] sample_state) "timed out").
    reflexivity.
  - apply (proj2 (linodeAPICall_transport_and_parse_failures sample_repr garbled_world
                    [("api_action", "domain.list")] sample_state)
             "Expecting value: line 1 column 1 (char 0)").
    reflexivity.
Defined.



Lemma normalizeResourceID_unknown_resource_witness :
  _normalizeResourceID sample_repr fresh_world "100" "www" sample_state =
    (Exit (-1),
     log_to sample_state
       (EvRequest [("api_action", "domain.resource.list"); ("DomainID", "100");
                   ("api_key", "KEY123")] ::
        error_prints (unknown_resource_message "100" "www") None)) ∧
  contains "www" (unknown_resource_message "100" "www") = true ∧
  contains "100" (unknown_resource_message "100" "www") = true.
Proof.
  apply (normalizeResourceID_unknown_resource sample_repr fresh_world "100" "www"
           sample_state (list_response sample_resources) sample_resources).
  - reflexivity.
  - reflexivity.
  - reflexivity.
  - constructor; [|constructor; [|constructor]].
    + exists "CNAME", (JInt 199). split; [reflexivity|]. split; [reflexivity|].
      left. discriminate.
    + exists "A", (JInt 200). split; [reflexivity|]. split; [reflexivity|].
      right. split; [discriminate|]. exists (JStr "home"). split; [reflexivity|discriminate].
Defined.

Lemma normalizeDomainID_malformed_entry_witness :
  _normalizeDomainID sample_repr ragged_world "example.com" sample_state =
    (Raise (KeyError "DOMAINID"),
     log_to sample_state [EvRequest [("api_action", "domain.list"); ("api_key", "KEY123")]]).
Proof.
  apply (proj1 (normalizeDomainID_malformed_entry sample_repr ragged_world "example.com"
                  sample_state (list_response ragged_domains) []
                  (JDict [("DOMAIN", JStr "other.com")])
                  [JDict [("DOMAINID", JInt 100); ("DOMAIN", JStr "example.com")]]
                  eq_refl eq_refl eq_refl (Forall_nil_2 _))).
  reflexivity.
Defined.

Lemma normalizeResourceID_malformed_entry_witness :
  _normalizeResourceID sample_repr ragged_world "100" "home" sample_state =
    (Raise (KeyError "RESOURCEID"),
     log_to sample_state [EvRequest [("api_action", "domain.resource.list");
                                     ("DomainID", "100"); ("api_key", "KEY123")]]).
Proof.
  apply (proj1 (proj2 (proj2 (normalizeResourceID_malformed_entry sample_repr ragged_world
                                "100" "home" sample_state (list_response ragged_resources) []
                                (JDict [("TYPE", JStr "CNAME"); ("NAME", JStr "www")])
                                [JDict [("RESOURCEID", JInt 200); ("TYPE", JStr "A");
                                        ("NAME", JStr "home")]]
                                eq_refl eq_refl eq_refl (Forall_nil_2 _)))) "CNAME");
    reflexivity.
Defined.

Lemma updateDynDNS_valid_target_witness :
  (_updateDynDNS dotted_quad sample_repr fresh_world "100" "200" "203.0.113.5"
     sample_state).1 = Ret ().
Proof.
  apply (proj1 (proj2 (updateDynDNS_valid_target dotted_quad sample_repr fresh_world
                         "100" "200" "203.0.113.5" sample_state eq_refl))).
  exists (list_response []). split; reflexivity.
Defined.

Lemma elem_of_first {A} (x : A) (l rest : list A) : l = x :: rest → x ∈ l.
Proof. intros ->. apply list_elem_of_here. Defined.

Lemma run_requests_carry_credential_witness :
  dict_get "api_key" [("api_action", "domain.list"); ("api_key", "KEY123")] =
    Some (apiKey sample_args).
Proof.
  apply (run_requests_carry_credential dotted_quad sample_repr fresh_world sample_args).
  eapply elem_of_first. vm_compute. reflexivity.
Defined.


Lemma run_fetches_ip_only_without_flag_witness :
  (∀ url, EvFetch url ∉ events (run dotted_quad sample_repr fresh_world sample_args).2) ∧
  ∃ rest, events (run dotted_quad sample_repr fresh_world lookup_args).2 =
            EvFetch _IP_FINDER_URL :: rest ∧ ∀ url, EvFetch url ∉ rest.
Proof.
  split.
  - apply (proj1 (run_fetches_ip_only_without_flag dotted_quad sample_repr fresh_world
                    sample_args) "203.0.113.5" eq_refl).
  - apply (proj2 (run_fetches_ip_only_without_flag dotted_quad sample_repr fresh_world
                    lookup_args) eq_refl).
Defined.

Lemma run_cache_write_touches_one_section_witness :
  ∃ ip0, desired_ip dotted_quad stale_world sample_args = Some ip0 ∧
         cache_after stale_world sample_args "203.0.113.5" !! cache_key sample_args =
           Some {["ip" := ip0]} ∧
         ∀ key, key ≠ cache_key sample_args →
                cache_after stale_world sample_args "203.0.113.5" !! key =
                  cache_file stale_world !! key.
Proof.
  apply (run_cache_write_touches_one_section dotted_quad sample_repr stale_world sample_args).
  eapply elem_of_first. vm_compute. reflexivity.
Defined.



